(** * Point - Plane collision demo (PointPlane/main.cpp)

    A shallow embedding of the C++ program: the GLM vector and matrix
    operations it calls, the [Mesh] and [Plane] structures, the collision
    test, the per-frame [update], the keyboard and mouse callbacks, the scene
    set-up of [main], the shader source loader and builder, the render path
    and the frame loop, and the destruction of the meshes.

    [GLIncludes.h] (GLM, GLFW, GLEW, the C and C++ standard headers) is not
    part of the sources.  The scalar type [float] is an interface, [Scalar],
    with two instances: IEEE 754 binary32, the type the program runs on, and
    exact rational arithmetic, in which the algebraic laws that rounding
    breaks hold.  The GLM operations follow GLM's own definitions
    (type_mat4x4.inl, func_geometric.inl, matrix_transform.inl), with their
    order of additions. *)

From Stdlib Require Import ZArith List Bool String Ascii Lia Ring.
From Stdlib Require Import QArith Qcanon Qcabs.
From Stdlib Require Import Floats.SpecFloat.
Import ListNotations.

Local Open Scope Z_scope.

(** ** The scalar interface *)

(** What the program asks of [float]: the literals [0.0f] and [1.0f], decimal
    literals such as [0.002f], the arithmetic operators, unary minus, [fabs],
    the comparisons [<=] and [==], and [FLT_EPSILON] of <cfloat>. *)
Class Scalar := {
  float : Type;
  fzero : float;
  fone : float;
  fdecimal : Z -> Z -> float;   (* [fdecimal m k] is the literal m / 10^k *)
  fadd : float -> float -> float;
  fsub : float -> float -> float;
  fmul : float -> float -> float;
  fneg : float -> float;
  fabs : float -> float;
  fle : float -> float -> bool;
  feq : float -> float -> bool;
  FLT_EPSILON : float
}.

(** What [glm::normalize] needs on top of it: division and square root. *)
Class ScalarRoot (S : Scalar) := {
  fdiv : float -> float -> float;
  fsqrt : float -> float
}.

(** ** IEEE 754 binary32 *)

Module Binary32.

Definition prec : Z := 24.
Definition emax : Z := 128.

Definition of_Z (n : Z) : spec_float := binary_normalize prec emax n 0 false.

Definition one : spec_float := Eval vm_compute in of_Z 1.

Definition add := SFadd prec emax.
Definition sub := SFsub prec emax.
Definition mul := SFmul prec emax.
Definition div := SFdiv prec emax.
Definition sqrt := SFsqrt prec emax.

(** A decimal literal is rounded to the nearest float; the quotient of two
    integers below 2^24 is that rounding. *)
Definition decimal (m k : Z) : spec_float := div (of_Z m) (of_Z (10 ^ k)).

(** [FLT_EPSILON] is 2^-23, the gap between 1 and the next float. *)
Definition epsilon : spec_float := S754_finite false 8388608 (-46).

Definition is_finite (x : spec_float) : bool :=
  match x with
  | S754_zero _ | S754_finite _ _ _ => true
  | S754_infinity _ | S754_nan => false
  end.

Definition is_zero (x : spec_float) : bool :=
  match x with
  | S754_zero _ => true
  | _ => false
  end.

(** The representation invariant of a binary32 value: a finite number has
    its canonical mantissa and exponent. *)
Definition valid (x : spec_float) : bool := valid_binary prec emax x.

#[export] Instance scalar : Scalar := {|
  float := spec_float;
  fzero := S754_zero false;
  fone := one;
  fdecimal := decimal;
  fadd := add;
  fsub := sub;
  fmul := mul;
  fneg := SFopp;
  fabs := SFabs;
  fle := SFleb;
  feq := SFeqb;
  FLT_EPSILON := epsilon
|}.

#[export] Instance root : ScalarRoot scalar := {|
  fdiv := div;
  fsqrt := sqrt
|}.

(** Polynomial stand-ins for the C library's [sinf] and [cosf], good for
    small angles; they serve to run the program on examples. *)
Definition sin_taylor (a : spec_float) : spec_float :=
  let a2 := mul a a in
  mul a (sub one (mul (div a2 (of_Z 6))
                      (sub one (mul (div a2 (of_Z 20)) (sub one (div a2 (of_Z 42))))))).

Definition cos_taylor (a : spec_float) : spec_float :=
  let a2 := mul a a in
  sub one (mul (div a2 (of_Z 2))
               (sub one (mul (div a2 (of_Z 12)) (sub one (div a2 (of_Z 30)))))).

End Binary32.

(** ** IEEE 754 binary64, the type of the cursor coordinates *)

Module Binary64.

Definition prec : Z := 53.
Definition emax : Z := 1024.

Definition of_Z (n : Z) : spec_float := binary_normalize prec emax n 0 false.

Definition sub := SFsub prec emax.

(** The conversion [(float) d] rounds a finite double to binary32. *)
Definition to_binary32 (d : spec_float) : spec_float :=
  match d with
  | S754_finite s m e => binary_round Binary32.prec Binary32.emax s m e
  | _ => d
  end.

End Binary64.

(** ** Exact rational arithmetic *)

Module Exact.

Definition decimal (m k : Z) : Qc := Q2Qc (m # Z.to_pos (10 ^ k)).

Definition le (a b : Qc) : bool := Qle_bool a b.
Definition eqb (a b : Qc) : bool := Qeq_bool a b.

#[export] Instance scalar : Scalar := {|
  float := Qc;
  fzero := Q2Qc 0;
  fone := Q2Qc 1;
  fdecimal := decimal;
  fadd := Qcplus;
  fsub := Qcminus;
  fmul := Qcmult;
  fneg := Qcopp;
  fabs := Qcabs;
  fle := le;
  feq := eqb;
  FLT_EPSILON := Q2Qc (1 # 8388608)
|}.

End Exact.

(** ** GLM: vectors and matrices *)

Section Glm.

Context {S : Scalar}.

Record vec3 := mkvec3 { x3 : float; y3 : float; z3 : float }.
Record vec4 := mkvec4 { x4 : float; y4 : float; z4 : float; w4 : float }.

(** [glm::mat4] is column-major: [m[i]] is column [i], [m[i][j]] its row
    [j]. *)
Record mat4 := mkmat4 { col0 : vec4; col1 : vec4; col2 : vec4; col3 : vec4 }.

(** [glm::vec4(v, w)] and [glm::vec3(v4)]. *)
Definition vec4_of (v : vec3) (w : float) : vec4 := mkvec4 (x3 v) (y3 v) (z3 v) w.
Definition vec3_of (v : vec4) : vec3 := mkvec3 (x4 v) (y4 v) (z4 v).

Definition vec3_add (a b : vec3) : vec3 :=
  mkvec3 (fadd (x3 a) (x3 b)) (fadd (y3 a) (y3 b)) (fadd (z3 a) (z3 b)).
Definition vec3_sub (a b : vec3) : vec3 :=
  mkvec3 (fsub (x3 a) (x3 b)) (fsub (y3 a) (y3 b)) (fsub (z3 a) (z3 b)).
Definition vec3_scale (a : vec3) (s : float) : vec3 :=
  mkvec3 (fmul (x3 a) s) (fmul (y3 a) s) (fmul (z3 a) s).

Definition vec4_add (a b : vec4) : vec4 :=
  mkvec4 (fadd (x4 a) (x4 b)) (fadd (y4 a) (y4 b)) (fadd (z4 a) (z4 b)) (fadd (w4 a) (w4 b)).
Definition vec4_scale (a : vec4) (s : float) : vec4 :=
  mkvec4 (fmul (x4 a) s) (fmul (y4 a) s) (fmul (z4 a) s) (fmul (w4 a) s).

(** [glm::mat4(s)]: [s] on the diagonal. *)
Definition mat4_diag (s : float) : mat4 :=
  mkmat4 (mkvec4 s fzero fzero fzero) (mkvec4 fzero s fzero fzero)
         (mkvec4 fzero fzero s fzero) (mkvec4 fzero fzero fzero s).

Definition mat4_identity : mat4 := mat4_diag fone.

(** [m * v]: the columns are scaled by the components of [v] and added in
    pairs. *)
Definition mat4_mul_vec4 (m : mat4) (v : vec4) : vec4 :=
  let Mul0 := vec4_scale (col0 m) (x4 v) in
  let Mul1 := vec4_scale (col1 m) (y4 v) in
  let Add0 := vec4_add Mul0 Mul1 in
  let Mul2 := vec4_scale (col2 m) (z4 v) in
  let Mul3 := vec4_scale (col3 m) (w4 v) in
  let Add1 := vec4_add Mul2 Mul3 in
  vec4_add Add0 Add1.

(** One column of [m1 * m2]:
    [SrcA0 * b[0] + SrcA1 * b[1] + SrcA2 * b[2] + SrcA3 * b[3]]. *)
Definition mat4_mul_col (m1 : mat4) (b : vec4) : vec4 :=
  vec4_add
    (vec4_add
       (vec4_add (vec4_scale (col0 m1) (x4 b)) (vec4_scale (col1 m1) (y4 b)))
       (vec4_scale (col2 m1) (z4 b)))
    (vec4_scale (col3 m1) (w4 b)).

Definition mat4_mul (m1 m2 : mat4) : mat4 :=
  mkmat4 (mat4_mul_col m1 (col0 m2)) (mat4_mul_col m1 (col1 m2))
         (mat4_mul_col m1 (col2 m2)) (mat4_mul_col m1 (col3 m2)).

(** [glm::dot]: the componentwise products, summed left to right. *)
Definition dot (a b : vec3) : float :=
  fadd (fadd (fmul (x3 a) (x3 b)) (fmul (y3 a) (y3 b))) (fmul (z3 a) (z3 b)).

Definition cross (a b : vec3) : vec3 :=
  mkvec3 (fsub (fmul (y3 a) (z3 b)) (fmul (y3 b) (z3 a)))
         (fsub (fmul (z3 a) (x3 b)) (fmul (z3 b) (x3 a)))
         (fsub (fmul (x3 a) (y3 b)) (fmul (x3 b) (y3 a))).

(** [glm::translate(m, v)]: [m] with its last column replaced by
    [m[0] * v[0] + m[1] * v[1] + m[2] * v[2] + m[3]]. *)
Definition translate (m : mat4) (v : vec3) : mat4 :=
  mkmat4 (col0 m) (col1 m) (col2 m)
    (vec4_add
       (vec4_add
          (vec4_add (vec4_scale (col0 m) (x3 v)) (vec4_scale (col1 m) (y3 v)))
          (vec4_scale (col2 m) (z3 v)))
       (col3 m)).

Section Root.
Context {SR : ScalarRoot S}.

(** [glm::inversesqrt], [glm::normalize] and [glm::length]. *)
Definition inversesqrt (a : float) : float := fdiv fone (fsqrt a).
Definition normalize (v : vec3) : vec3 := vec3_scale v (inversesqrt (dot v v)).
Definition length3 (v : vec3) : float := fsqrt (dot v v).

(** [glm::rotate(m, angle, v)], given the C library's [cos] and [sin]. *)
Variable cos sin : float -> float.

Definition glm_rotate (m : mat4) (angle : float) (v : vec3) : mat4 :=
  let c := cos angle in
  let s := sin angle in
  let axis := normalize v in
  let temp := mkvec3 (fmul (fsub fone c) (x3 axis)) (fmul (fsub fone c) (y3 axis))
                     (fmul (fsub fone c) (z3 axis)) in
  let r00 := fadd c (fmul (x3 temp) (x3 axis)) in
  let r01 := fadd (fadd fzero (fmul (x3 temp) (y3 axis))) (fmul s (z3 axis)) in
  let r02 := fsub (fadd fzero (fmul (x3 temp) (z3 axis))) (fmul s (y3 axis)) in
  let r10 := fsub (fadd fzero (fmul (y3 temp) (x3 axis))) (fmul s (z3 axis)) in
  let r11 := fadd c (fmul (y3 temp) (y3 axis)) in
  let r12 := fadd (fadd fzero (fmul (y3 temp) (z3 axis))) (fmul s (x3 axis)) in
  let r20 := fadd (fadd fzero (fmul (z3 temp) (x3 axis))) (fmul s (y3 axis)) in
  let r21 := fsub (fadd fzero (fmul (z3 temp) (y3 axis))) (fmul s (x3 axis)) in
  let r22 := fadd c (fmul (z3 temp) (z3 axis)) in
  let combine r0 r1 r2 :=
    vec4_add (vec4_add (vec4_scale (col0 m) r0) (vec4_scale (col1 m) r1))
             (vec4_scale (col2 m) r2) in
  mkmat4 (combine r00 r01 r02) (combine r10 r11 r12) (combine r20 r21 r22) (col3 m).
End Root.

(** The translation column [(m[3][0], m[3][1], m[3][2])]. *)
Definition position (m : mat4) : vec3 :=
  mkvec3 (x4 (col3 m)) (y4 (col3 m)) (z4 (col3 m)).

(** A matrix whose bottom row is (0, 0, 0, 1). *)
Definition affine (m : mat4) : Prop :=
  w4 (col0 m) = fzero /\ w4 (col1 m) = fzero /\ w4 (col2 m) = fzero /\
  w4 (col3 m) = fone.

End Glm.

Arguments vec3 S : clear implicits.
Arguments vec4 S : clear implicits.
Arguments mat4 S : clear implicits.

(** ** GLM as the program is built against it *)

(** [glm::mat4()], the default constructor.  The program is written for a
    GLM whose default constructor gives the identity matrix (the releases
    before 0.9.9): [main] passes [plane->translation] to [glm::translate] as
    the constructor left it, [hue] is uploaded as the colour matrix without
    ever being assigned as a whole, and [update] multiplies the rotation by
    the default-constructed [yaw] and [pitch]. *)
Definition glm_mat4 {S : Scalar} : mat4 S := mat4_diag fone.

(** The rotations the specification names, for comparison with
    [glm::rotate]: the matrix that turns by the angle of cosine [c] and sine
    [s] about the Y axis, and the one about the X axis, column by column. *)
Definition spec_rotation_about_Y {S : Scalar} (c s : float) : mat4 S :=
  mkmat4 (mkvec4 c fzero (fneg s) fzero)
         (mkvec4 fzero fone fzero fzero)
         (mkvec4 s fzero c fzero)
         (mkvec4 fzero fzero fzero fone).

Definition spec_rotation_about_X {S : Scalar} (c s : float) : mat4 S :=
  mkmat4 (mkvec4 fone fzero fzero fzero)
         (mkvec4 fzero c s fzero)
         (mkvec4 fzero (fneg s) c fzero)
         (mkvec4 fzero fzero fzero fone).


(** ** The platform *)

(** The cursor position is a pair of [double]s; [update] subtracts two of
    them and converts the difference to [float]. *)
Class Platform (S : Scalar) := {
  double : Type;
  dzero : double;
  dsub : double -> double -> double;
  float_of_double : double -> float
}.

Module Binary64Platform.

#[export] Instance platform : Platform Binary32.scalar := {|
  double := spec_float;
  dzero := S754_zero false;
  dsub := Binary64.sub;
  float_of_double := (Binary64.to_binary32 : spec_float -> @float Binary32.scalar)
|}.

End Binary64Platform.

(** Constants of the GL and GLFW headers. *)
Definition GLuint := Z.
Definition GLenum := Z.
Definition GL_POINTS : GLenum := 0.
Definition GL_TRIANGLES : GLenum := 4.
Definition GLFW_RELEASE : Z := 0.
Definition GLFW_PRESS : Z := 1.
Definition GLFW_REPEAT : Z := 2.
Definition GLFW_MOUSE_BUTTON_LEFT : Z := 0.
Definition GLFW_KEY_SPACE : Z := 32.
Definition GLFW_KEY_A : Z := 65.
Definition GLFW_KEY_D : Z := 68.
Definition GLFW_KEY_S : Z := 83.
Definition GLFW_KEY_W : Z := 87.
Definition GLFW_KEY_LEFT_SHIFT : Z := 340.
Definition GLFW_KEY_LEFT_CONTROL : Z := 341.

(** ** The program *)

Section Program.

Context {S : Scalar}.

Record Vertex := mkVertex {
  x : float; y : float; z : float;
  r : float; g : float; b : float; a : float
}.

(** The GL objects a [Mesh] creates: the vertex array names in use and the
    buffers with the data uploaded to them. *)
Record GLstate := mkGL {
  gl_vertex_arrays : list GLuint;
  gl_buffers : list (GLuint * list Vertex)
}.

(** [glGenVertexArrays] and [glGenBuffers] return a name not in use. *)
Definition gl_fresh (used : list GLuint) : GLuint := 1 + fold_right Z.max 0 used.

Record Mesh := mkMesh {
  VBO : GLuint;
  VAO : GLuint;
  translation : mat4 S;
  rotation : mat4 S;
  scale : mat4 S;
  numVertices : Z;
  vertices : list Vertex;
  primitive : GLenum
}.

Definition set_translation (m : Mesh) (t : mat4 S) : Mesh :=
  mkMesh (VBO m) (VAO m) t (rotation m) (scale m) (numVertices m) (vertices m) (primitive m).

Definition set_rotation (m : Mesh) (t : mat4 S) : Mesh :=
  mkMesh (VBO m) (VAO m) (translation m) t (scale m) (numVertices m) (vertices m) (primitive m).

(** [Mesh::GetModelMatrix]: [translation * rotation * scale], which C++
    groups to the left. *)
Definition GetModelMatrix (m : Mesh) : mat4 S :=
  mat4_mul (mat4_mul (translation m) (rotation m)) (scale m).

Record Plane := mkPlane { normal : vec3 S }.

(** [Plane::Plane()], the plane with its normal down the X axis. *)
Definition Plane_default : Plane := mkPlane (mkvec3 fone fzero fzero).

(** [float movementSpeed = 0.02f; float rotationSpeed = 0.01f;] *)
Definition movementSpeed : float := fdecimal 2 2.
Definition rotationSpeed : float := fdecimal 1 2.

(** Step 1 of [TestCollision]: the plane normal in world space. *)
Definition worldNormal (pCollider : Plane) (pModelMatrix : mat4 S) : vec3 S :=
  vec3_of (mat4_mul_vec4 pModelMatrix (vec4_of (normal pCollider) fzero)).

(** [TestCollision]. *)
Definition TestCollision (pCollider : Plane) (pModelMatrix : mat4 S) (point : vec3 S) : bool :=
  let acceptanceRange := fdecimal 2 3 in
  (* Step 1: the plane normal in world space *)
  let worldNormal := worldNormal pCollider pModelMatrix in
  (* Step 2: move to a system where the plane is the origin *)
  let planePos :=
    mkvec3 (x4 (col3 pModelMatrix)) (y4 (col3 pModelMatrix)) (z4 (col3 pModelMatrix)) in
  let point := vec3_sub point planePos in
  (* Step 3: the dot product of the point and the plane normal *)
  if fle (fabs (dot point worldNormal)) (fadd FLT_EPSILON acceptanceRange)
  then true else false.

Section WithLibrary.

(** The functions below take two parts of GLM as parameters, so that what
    does not depend on them is proved once for any: [glm::mat4()], the
    default constructor, which is [glm_mat4], and [glm::rotate], which is
    [glm_rotate] over the C library's [cos] and [sin]. *)
Variable mat4_default : mat4 S.
Variable rotate : mat4 S -> float -> vec3 S -> mat4 S.

(** [Mesh::Mesh].  The members [translation], [rotation] and [scale] are
    not named in an initialiser list, so they are default-constructed.
    The first three statements of the body declare local variables with
    the members' names; the locals are dropped when the constructor
    returns and the members are not assigned. *)
Definition Mesh_ctor (gl : GLstate) (numVert : Z) (vert : list Vertex) (primType : GLenum)
  : Mesh * GLstate :=
  let member_translation := mat4_default in
  let member_rotation := mat4_default in
  let member_scale := mat4_default in
  let translation := mat4_diag fone in
  let rotation := mat4_diag fone in
  let scale := mat4_diag fone in
  let this_vertices := firstn (Z.to_nat numVert) vert in
  let this_VAO := gl_fresh (gl_vertex_arrays gl) in
  let this_VBO := gl_fresh (map fst (gl_buffers gl)) in
  (mkMesh this_VBO this_VAO member_translation member_rotation member_scale
          numVert this_vertices primType,
   mkGL (this_VAO :: gl_vertex_arrays gl)
        ((this_VBO, this_vertices) :: gl_buffers gl)).

(** The two meshes live for the whole session and [selectedShape] points
    to one of them. *)
Inductive MeshRef := ref_plane | ref_point.

Section WithPlatform.

Context {P : Platform S}.

(** The global variables the callbacks and [update] read and write.  The
    window, the shader program and the uniform locations are left out:
    neither [update] nor a callback assigns them. *)
Record State := mkState {
  VP : mat4 S;
  hue : mat4 S;
  plane : Mesh;
  point : Mesh;
  selectedShape : MeshRef;
  planeCollider : Plane;
  isMousePressed : bool;
  prevMouseX : double;
  prevMouseY : double
}.

Definition selected (st : State) : Mesh :=
  match selectedShape st with
  | ref_plane => plane st
  | ref_point => point st
  end.

(** A write through [selectedShape]. *)
Definition set_selected (st : State) (m : Mesh) : State :=
  match selectedShape st with
  | ref_plane =>
      mkState (VP st) (hue st) m (point st) (selectedShape st) (planeCollider st)
              (isMousePressed st) (prevMouseX st) (prevMouseY st)
  | ref_point =>
      mkState (VP st) (hue st) (plane st) m (selectedShape st) (planeCollider st)
              (isMousePressed st) (prevMouseX st) (prevMouseY st)
  end.

Definition set_selectedShape (st : State) (s : MeshRef) : State :=
  mkState (VP st) (hue st) (plane st) (point st) s (planeCollider st)
          (isMousePressed st) (prevMouseX st) (prevMouseY st).

Definition set_mouse (st : State) (pressed : bool) (mx my : double) : State :=
  mkState (VP st) (hue st) (plane st) (point st) (selectedShape st) (planeCollider st)
          pressed mx my.

(** [hue[0][0] = v]. *)
Definition set_hue00 (st : State) (v : float) : State :=
  let h := hue st in
  mkState (VP st)
          (mkmat4 (mkvec4 v (y4 (col0 h)) (z4 (col0 h)) (w4 (col0 h)))
                  (col1 h) (col2 h) (col3 h))
          (plane st) (point st) (selectedShape st) (planeCollider st)
          (isMousePressed st) (prevMouseX st) (prevMouseY st).

(** The drag rotation of [update]; [cursor] is what [glfwGetCursorPos]
    returns. *)
Definition yaw_of (deltaMouseX : float) : mat4 S :=
  if negb (feq deltaMouseX fzero)
  then rotate (mat4_diag fone) (fmul deltaMouseX rotationSpeed) (mkvec3 fzero fone fzero)
  else mat4_default.

Definition pitch_of (deltaMouseY : float) : mat4 S :=
  if negb (feq deltaMouseY fzero)
  then rotate (mat4_diag fone) (fmul deltaMouseY rotationSpeed) (mkvec3 fone fzero fzero)
  else mat4_default.

Definition update_rotation (st : State) (cursor : double * double) : State :=
  if isMousePressed st then
    let currentMouseX := fst cursor in
    let currentMouseY := snd cursor in
    let deltaMouseX := float_of_double (dsub currentMouseX (prevMouseX st)) in
    let deltaMouseY := float_of_double (dsub currentMouseY (prevMouseY st)) in
    let yaw := yaw_of deltaMouseX in
    let pitch := pitch_of deltaMouseY in
    let st :=
      set_selected st
        (set_rotation (selected st)
           (mat4_mul (mat4_mul yaw pitch) (rotation (selected st)))) in
    set_mouse st (isMousePressed st) currentMouseX currentMouseY
  else st.

(** The collision branch of [update]. *)
Definition update_collision (st : State) : State :=
  if TestCollision (planeCollider st) (GetModelMatrix (plane st))
       (mkvec3 (x4 (col3 (translation (point st))))
               (y4 (col3 (translation (point st))))
               (z4 (col3 (translation (point st)))))
  then set_hue00 st fone
  else set_hue00 st fzero.

Definition update (st : State) (cursor : double * double) : State :=
  update_collision (update_rotation st cursor).

(** [key_callback]: one translation step of the selected mesh. *)
Definition move (st : State) (delta : vec3 S) : State :=
  set_selected st
    (set_translation (selected st)
       (mat4_mul (translate (mat4_diag fone) delta) (translation (selected st)))).

Definition key_callback (st : State) (key scancode action mods : Z) : State :=
  if (action =? GLFW_PRESS) || (action =? GLFW_REPEAT) then
    let st :=
      if key =? GLFW_KEY_SPACE
      then set_selectedShape st
             (match selectedShape st with
              | ref_plane => ref_point
              | ref_point => ref_plane
              end)
      else st in
    let st := if key =? GLFW_KEY_W
              then move st (mkvec3 fzero movementSpeed fzero) else st in
    let st := if key =? GLFW_KEY_A
              then move st (mkvec3 (fneg movementSpeed) fzero fzero) else st in
    let st := if key =? GLFW_KEY_S
              then move st (mkvec3 fzero (fneg movementSpeed) fzero) else st in
    let st := if key =? GLFW_KEY_D
              then move st (mkvec3 movementSpeed fzero fzero) else st in
    let st := if key =? GLFW_KEY_LEFT_CONTROL
              then move st (mkvec3 fzero fzero movementSpeed) else st in
    let st := if key =? GLFW_KEY_LEFT_SHIFT
              then move st (mkvec3 fzero fzero (fneg movementSpeed)) else st in
    st
  else st.

(** [mouse_callback]; [cursor] is what [glfwGetCursorPos] returns. *)
Definition mouse_callback (st : State) (button action mods : Z)
           (cursor : double * double) : State :=
  set_mouse st
    (if button =? GLFW_MOUSE_BUTTON_LEFT
     then (if action =? GLFW_PRESS then true else false)
     else false)
    (fst cursor) (snd cursor).

End WithPlatform.

End WithLibrary.

End Program.

(** ** Initialisation and scene set-up *)

Section Scene.

Context {S : Scalar} {SR : ScalarRoot S} {P : Platform S}.

Variable mat4_default : mat4 S.
Variable lookAt : vec3 S -> vec3 S -> vec3 S -> mat4 S.
Variable perspective : float -> float -> float -> float -> mat4 S.

(** The view-projection matrix of [init]. *)
Definition init_VP : mat4 S :=
  let view := lookAt (mkvec3 fzero fzero (fdecimal 2 0))
                     (mkvec3 fzero fzero fzero)
                     (mkvec3 fzero fone fzero) in
  let proj := perspective (fdecimal 45 0) (fdiv (fdecimal 800 0) (fdecimal 800 0))
                          (fdecimal 1 1) (fdecimal 100 0) in
  mat4_mul proj view.

(** The plane's vertices, as written in [main]. *)
Definition planeVerts : list Vertex :=
  [ mkVertex fzero fone fone fone fzero fone fone;
    mkVertex fzero (fneg fone) fone fone fzero fone fone;
    mkVertex fzero (fneg fone) (fneg fone) fone fzero fone fone;
    mkVertex fzero (fneg fone) (fneg fone) fone fzero fone fone;
    mkVertex fzero fone (fneg fone) fone fzero fone fone;
    mkVertex fzero fone fone fone fzero fone fone ].

Definition pointVert : Vertex := mkVertex fzero fzero fzero fone fone fzero fone.

(** [planeVerts[i]] for an index inside the array. *)
Definition planeVert (i : nat) : Vertex := nth i planeVerts pointVert.

Definition edge1 : vec3 S :=
  mkvec3 (fsub (x (planeVert 0)) (x (planeVert 1)))
         (fsub (y (planeVert 0)) (y (planeVert 1)))
         (fsub (z (planeVert 0)) (z (planeVert 1))).

Definition edge2 : vec3 S :=
  mkvec3 (fsub (x (planeVert 1)) (x (planeVert 2)))
         (fsub (y (planeVert 1)) (y (planeVert 2)))
         (fsub (z (planeVert 1)) (z (planeVert 2))).

(** The state [main] has built when it enters the frame loop; [VP] is the
    matrix [init] has stored.  [hue] is a global that nothing assigns
    before the loop: it is default-constructed. *)
Definition main_setup (VP : mat4 S) (gl : GLstate) : State * GLstate :=
  let '(plane0, gl1) := Mesh_ctor mat4_default gl 6 planeVerts GL_TRIANGLES in
  let plane1 :=
    set_translation plane0
      (translate (translation plane0) (mkvec3 (fdecimal 15 2) fzero fzero)) in
  let '(point0, gl2) := Mesh_ctor mat4_default gl1 1 [pointVert] GL_POINTS in
  let point1 :=
    set_translation point0
      (translate (translation point0) (mkvec3 (fneg (fdecimal 15 2)) fzero fzero)) in
  let normal := normalize (cross edge1 edge2) in
  (mkState VP mat4_default plane1 point1 ref_plane (mkPlane normal)
           false dzero dzero,
   gl2).

End Scene.

(** ** The shader source loader *)

Module Shader.

Local Open Scope string_scope.

(** The files that can be opened for reading, with their bytes. *)
Definition FileSystem := string -> option string.

(** How a call ends: by a [return] statement or by an exception. *)
Inductive completion := Returns (value : string) | Throws.

(** What [std::cout] has received and how the call ended. *)
Record result := mkResult { printed : string; outcome : completion }.

(** [std::string::data()] written to a stream as a [const char*]: the
    characters before the first NUL. *)
Fixpoint c_str (s : string) : string :=
  match s with
  | EmptyString => EmptyString
  | String c rest => if Ascii.eqb c zero then EmptyString else String c (c_str rest)
  end.

(** [std::string::resize(n)] of an empty string: [n] NUL characters. *)
Fixpoint nul_string (n : nat) : string :=
  match n with
  | O => EmptyString
  | Datatypes.S k => String zero (nul_string k)
  end.

(** [file.read(&buf[0], n)] into a buffer of [n] NULs: the first [n]
    characters the stream delivers overwrite the front of the buffer. *)
Definition read_into (n : nat) (delivered : string) : string :=
  let got := substring 0 n delivered in
  got ++ nul_string (n - String.length got).

Definition endl : string := String (ascii_of_nat 10) EmptyString.

Section Stream.

(** The file is opened with [std::ios::in] alone, that is in text mode:
    [text_mode bytes] is what the stream delivers for a file holding
    [bytes]. *)
Variable text_mode : string -> string.

Definition readShader (fs : FileSystem) (fileName : string) : result :=
  match fs fileName with
  | None =>
      mkResult ("Can't read file: " ++ c_str fileName ++ endl) (Returns "")
  | Some bytes =>
      (* seekg(0, end); tellg(): the size of the file in bytes *)
      let tellg := Z.of_nat (String.length bytes) in
      (* (unsigned int) file.tellg() *)
      let size := Z.to_nat (tellg mod 2 ^ 32) in
      mkResult "" (Returns (read_into size (text_mode bytes)))
  end.

End Stream.

(** Text mode of a POSIX stream: the bytes as they are. *)
Definition posix_text_mode (bytes : string) : string := bytes.

(** Text mode of the Microsoft C++ runtime: a carriage return followed by a
    line feed is delivered as the line feed. *)
Fixpoint crlf_text_mode (bytes : string) : string :=
  match bytes with
  | EmptyString => EmptyString
  | String c rest =>
      match rest with
      | String c' _ =>
          if Ascii.eqb c (ascii_of_nat 13) && Ascii.eqb c' (ascii_of_nat 10)
          then crlf_text_mode rest
          else String c (crlf_text_mode rest)
      | EmptyString => String c EmptyString
      end
  end.

(** No NUL character inside the string. *)
Fixpoint nul_free (s : string) : bool :=
  match s with
  | EmptyString => true
  | String c rest => negb (Ascii.eqb c zero) && nul_free rest
  end.

(** Examples: a directory that holds one shader, with Unix and with
    Windows line ends, and a file of 2^32 bytes. *)
Definition lf : string := endl.
Definition crlf : string := String (ascii_of_nat 13) lf.

Definition unix_shader : string := "void main()" ++ lf ++ "{}" ++ lf.
Definition windows_shader : string := "void main()" ++ crlf ++ "{}" ++ crlf.

(** The two paths [init] reads. *)
Definition vertex_path : string := "../Assets/VertexShader.glsl".
Definition fragment_path : string := "../Assets/FragmentShader.glsl".
Definition huge_path : string := "huge.glsl".

Definition four_gib : positive := 4294967296.
Definition huge_file : string := Pos.iter (String "a"%char) EmptyString four_gib.

Definition one_file (name bytes : string) : FileSystem :=
  fun path => if String.eqb path name then Some bytes else None.

End Shader.

(** ** Concrete values used in the examples *)

Abbreviation F32 := Binary32.scalar.

(** All three components of a binary32 vector are finite numbers: neither
    an infinity nor a NaN. *)
Definition finite3 (v : vec3 F32) : bool :=
  Binary32.is_finite (x3 v) && Binary32.is_finite (y3 v) && Binary32.is_finite (z3 v).

Module Sample.

Definition zero32 : spec_float := S754_zero false.

(** The point (d, 0, 0). *)
Definition on_x_axis (d : spec_float) : vec3 F32 := mkvec3 (S:=F32) d zero32 zero32.

(** The plane of [Plane()], normal (1, 0, 0). *)
Definition x_plane : Plane (S:=F32) := Plane_default.

Definition identity32 : mat4 F32 := mat4_identity.

(** The identity with bottom-right element 2: not an affine matrix. *)
Definition projective32 : mat4 F32 :=
  mkmat4 (col0 identity32) (col1 identity32) (col2 identity32)
         (mkvec4 (S:=F32) zero32 zero32 zero32 (Binary32.of_Z 2)).

(** The identity moved to x = +infinity. *)
Definition at_infinity32 : mat4 F32 :=
  mkmat4 (col0 identity32) (col1 identity32) (col2 identity32)
         (mkvec4 (S:=F32) (S754_infinity false) zero32 zero32 Binary32.one).

(** [glm::mat4()] in binary32. *)
Definition identity_default : mat4 F32 := glm_mat4.

Definition rotate32 : mat4 F32 -> spec_float -> vec3 F32 -> mat4 F32 :=
  glm_rotate (S:=F32) (SR:=Binary32.root) Binary32.cos_taylor Binary32.sin_taylor.

Definition no_gl_objects : GLstate (S:=F32) := mkGL [] [].

(** The scene of [main] under the identity default constructor; the
    view-projection matrix plays no part in the examples. *)
Definition scene : State (S:=F32) (P:=Binary64Platform.platform) :=
  fst (main_setup (SR:=Binary32.root) identity_default identity32 no_gl_objects).

(** The scene with the plane, the selected mesh, moved back to the origin. *)
Definition centred : State (S:=F32) (P:=Binary64Platform.platform) :=
  set_selected scene (set_translation (selected scene) identity32).

Definition cursor (cx cy : Z) : spec_float * spec_float :=
  (Binary64.of_Z cx, Binary64.of_Z cy).

(** The scene with the left button held since the cursor was at
    (100, 100), and the same after the cursor has moved to (110, 100). *)
Definition dragging : State (S:=F32) (P:=Binary64Platform.platform) :=
  mouse_callback scene GLFW_MOUSE_BUTTON_LEFT GLFW_PRESS 0 (cursor 100 100).

Definition dragged : State (S:=F32) (P:=Binary64Platform.platform) :=
  update identity_default rotate32 dragging (cursor 110 100).

(** Exact arithmetic: an affine matrix (a quarter turn about Y, moved to
    (3, 5, 7), stretched along Y) and a mesh that scales by 2. *)
Definition q (n : Z) : Qc := Q2Qc (inject_Z n).

Definition affine_exact : mat4 Exact.scalar :=
  mkmat4 (mkvec4 (S:=Exact.scalar) (q 0) (q 0) (q (-1)) (q 0))
         (mkvec4 (S:=Exact.scalar) (q 0) (q 2) (q 0) (q 0))
         (mkvec4 (S:=Exact.scalar) (q 1) (q 0) (q 0) (q 0))
         (mkvec4 (S:=Exact.scalar) (q 3) (q 5) (q 7) (q 1)).

Definition scale_exact : mat4 Exact.scalar :=
  mkmat4 (mkvec4 (S:=Exact.scalar) (q 2) (q 0) (q 0) (q 0))
         (mkvec4 (S:=Exact.scalar) (q 0) (q 2) (q 0) (q 0))
         (mkvec4 (S:=Exact.scalar) (q 0) (q 0) (q 2) (q 0))
         (mkvec4 (S:=Exact.scalar) (q 0) (q 0) (q 0) (q 1)).

Definition mesh_exact : Mesh (S:=Exact.scalar) :=
  mkMesh 1 1 affine_exact affine_exact scale_exact 0 [] GL_POINTS.

End Sample.

(** ** Destruction, drawing and the frame loop *)

Definition GL_DEPTH_BUFFER_BIT : Z := 256.
Definition GL_COLOR_BUFFER_BIT : Z := 16384.
Definition GL_FRAGMENT_SHADER : GLenum := 35632.
Definition GL_VERTEX_SHADER : GLenum := 35633.

Section Rendering.

Context {S : Scalar}.

(** [Mesh::~Mesh]: [glDeleteVertexArrays] and [glDeleteBuffers] drop the two
    names of the mesh; a name that is not in use is ignored. *)
Definition Mesh_dtor (gl : GLstate) (m : Mesh) : GLstate :=
  mkGL (filter (fun name => negb (name =? VAO m)) (gl_vertex_arrays gl))
       (filter (fun buffer => negb (fst buffer =? VBO m)) (gl_buffers gl)).

(** The data held by the buffer of a given name. *)
Definition gl_buffer_data (gl : GLstate) (name : GLuint) : option (list Vertex) :=
  match find (fun buffer => fst buffer =? name) (gl_buffers gl) with
  | Some buffer => Some (snd buffer)
  | None => None
  end.

(** The GL and GLFW calls of the render path, in the order they are made. *)
Inductive GLcall :=
| glClear (mask : Z)
| glClearColor (red green blue alpha : float)
| glUseProgram (program : GLuint)
| glUniformMatrix4fv (location : GLuint) (count : Z) (transpose : bool) (value : mat4 S)
| glBindVertexArray (array : GLuint)
| glDrawArrays (mode : GLenum) (first count : Z)
| glfwSwapBuffers.

(** The globals [init] fills and the render path reads. *)
Record Globals := mkGlobals {
  program : GLuint;
  vertex_shader : GLuint;
  fragment_shader : GLuint;
  uniMVP : GLuint;
  uniHue : GLuint
}.

(** [Mesh::Draw], with the globals [uniMVP] and [VP] it reads. *)
Definition Draw (uniMVP : GLuint) (VP : mat4 S) (m : Mesh) : list GLcall :=
  let MVP := mat4_mul VP (GetModelMatrix m) in
  [ glBindVertexArray (VAO m);
    glUniformMatrix4fv uniMVP 1 false MVP;
    glDrawArrays (primitive m) 0 (numVertices m) ].

Section Loop.

Context {P : Platform S}.
Variable mat4_default : mat4 S.
Variable rotate : mat4 S -> float -> vec3 S -> mat4 S.

(** [renderScene]. *)
Definition renderScene (g : Globals) (st : State) : list GLcall :=
  [ glClear (Z.lor GL_COLOR_BUFFER_BIT GL_DEPTH_BUFFER_BIT);
    glClearColor fzero fzero fzero fone;
    glUseProgram (program g);
    glUniformMatrix4fv (uniHue g) 1 false (hue st) ]
  ++ Draw (uniMVP g) (VP st) (plane st)
  ++ Draw (uniMVP g) (VP st) (point st).

(** The input events GLFW hands to the two registered callbacks; a mouse
    event carries the cursor position the callback reads. *)
Inductive Event :=
| KeyEvent (key scancode action mods : Z)
| MouseButtonEvent (button action mods : Z) (cursor : double * double).

Definition dispatch (st : State) (e : Event) : State :=
  match e with
  | KeyEvent key scancode action mods => key_callback st key scancode action mods
  | MouseButtonEvent button action mods cursor =>
      mouse_callback st button action mods cursor
  end.

(** [glfwPollEvents]: the pending events, each through its callback. *)
Definition glfwPollEvents (st : State) (events : list Event) : State :=
  fold_left dispatch events st.

(** What one turn of the loop in [main] meets: the cursor position [update]
    reads and the events pending at the poll. *)
Record Frame := mkFrame {
  frame_cursor : double * double;
  frame_events : list Event
}.

(** The body of the loop: update, render, swap, poll. *)
Definition loop_body (g : Globals) (st : State) (f : Frame) : State * list GLcall :=
  let st1 := update mat4_default rotate st (frame_cursor f) in
  let calls := renderScene g st1 ++ [glfwSwapBuffers] in
  (glfwPollEvents st1 (frame_events f), calls).

(** The loop, run until the window is told to close after the last of
    [frames]. *)
Fixpoint main_loop (g : Globals) (st : State) (frames : list Frame)
  : State * list GLcall :=
  match frames with
  | [] => (st, [])
  | f :: rest =>
      let '(st1, calls) := loop_body g st f in
      let '(st2, calls') := main_loop g st1 rest in
      (st2, calls ++ calls')
  end.

(** What the loop may change of the state it starts from: translation and
    rotation of the two meshes, the selection, the mouse state and
    [hue[0][0]].  [keeps_scene st st'] says that the rest of [st'] is as in
    [st]. *)
Definition keeps_scene (st st' : State) : Prop :=
  VP st' = VP st /\
  planeCollider st' = planeCollider st /\
  (exists T R : mat4 S, plane st' = set_rotation (set_translation (plane st) T) R) /\
  (exists T R : mat4 S, point st' = set_rotation (set_translation (point st) T) R) /\
  (exists v : float,
      hue st' = mkmat4 (mkvec4 v (y4 (col0 (hue st))) (z4 (col0 (hue st)))
                               (w4 (col0 (hue st))))
                       (col1 (hue st)) (col2 (hue st)) (col3 (hue st))).

End Loop.

End Rendering.

(** ** The whole run of [main] *)

Section Main.

Context {S : Scalar} {SR : ScalarRoot S} {P : Platform S}.
Variable mat4_default : mat4 S.
Variable rotate : mat4 S -> float -> vec3 S -> mat4 S.

(** The end of [main]: [delete plane; delete point;]. *)
Definition main_cleanup (gl : GLstate) (st : State) : GLstate :=
  Mesh_dtor (Mesh_dtor gl (plane st)) (point st).

(** [main] from the creation of the meshes to their deletion: the GL
    objects left at the end and the calls of the render path. *)
Definition main_run (g : Globals) (VP : mat4 S) (gl : GLstate) (frames : list Frame)
  : GLstate * list GLcall :=
  let '(st0, gl2) := main_setup mat4_default VP gl in
  let '(st1, calls) := main_loop mat4_default rotate g st0 frames in
  (main_cleanup gl2 st1, calls).

(** A draw call of the render path stays inside what [main] has uploaded:
    six vertices as triangles, one vertex as a point. *)
Definition draws_uploaded (call : GLcall) : Prop :=
  match call with
  | glDrawArrays mode first count =>
      (mode = GL_TRIANGLES /\ first = 0 /\ count = 6) \/
      (mode = GL_POINTS /\ first = 0 /\ count = 1)
  | _ => True
  end.

End Main.

(** ** The shader program builder *)

Module ShaderBuilder.

Local Open Scope string_scope.

(** What a call of [createShader] leaves: the handle it returns, what it has
    printed and the shader objects that exist afterwards. *)
Record created := mkCreated {
  handle : GLuint;
  diagnostic : string;
  shaders : list GLuint
}.

(** [(int) sourceCode.size()]: the size as a 32-bit signed integer. *)
Definition int_of_size (n : nat) : Z := (Z.of_nat n + 2 ^ 31) mod 2 ^ 32 - 2 ^ 31.

(** [glShaderSource] with an explicit length: that many characters, or the
    characters before the first NUL when the length is negative. *)
Definition submitted (sourceCode : string) : string :=
  let shader_code_size := int_of_size (String.length sourceCode) in
  if (shader_code_size <? 0)%Z then Shader.c_str sourceCode
  else substring 0 (Z.to_nat shader_code_size) sourceCode.

(** [glGetShaderInfoLog] into a buffer of [bufSize] characters: at most
    [bufSize - 1] characters of the log, then a NUL. *)
Definition glGetShaderInfoLog (bufSize : nat) (log : string) : string :=
  substring 0 (bufSize - 1) log.

Section Driver.

(** The GLSL compiler of the driver: whether a source compiles for a stage,
    and the log it writes. *)
Variable compiles : string -> GLenum -> bool.
Variable info_log : string -> GLenum -> string.

Definition createShader (existing : list GLuint) (sourceCode : string)
           (shaderType : GLenum) : created :=
  let shader := gl_fresh existing in
  let shader_code := submitted sourceCode in
  if compiles shader_code shaderType then
    mkCreated shader "" (shader :: existing)
  else
    let infolog := glGetShaderInfoLog 1024 (info_log shader_code shaderType) in
    mkCreated shader
      ("The shader failed to compile with the error:" ++ Shader.endl
       ++ Shader.c_str infolog ++ Shader.endl)
      (filter (fun name => negb (name =? shader)%Z) (shader :: existing)).

End Driver.

End ShaderBuilder.

(** ** Exact arithmetic for the cursor as well *)

Module ExactPlatform.

#[export] Instance platform : Platform Exact.scalar := {|
  double := Qc;
  dzero := Q2Qc 0;
  dsub := Qcminus;
  float_of_double := (fun d : Qc => d) : Qc -> @float Exact.scalar
|}.

End ExactPlatform.

(** ** Binary32 values up to the sign of zero *)

(** Equal, or both a zero. *)
Definition same_number (u v : spec_float) : Prop :=
  u = v \/ (Binary32.is_zero u = true /\ Binary32.is_zero v = true).

(** The pure translation to (a, b, c) in binary32. *)
Definition translation_at (a b c : spec_float) : mat4 F32 :=
  mkmat4 (col0 mat4_identity) (col1 mat4_identity) (col2 mat4_identity)
         (mkvec4 (S:=F32) a b c Binary32.one).

(** A finite binary32 value in canonical form. *)
Definition finite_valid (u : spec_float) : bool :=
  Binary32.is_finite u && Binary32.valid u.

(** All four components of a binary32 column are finite. *)
Definition finite4 (v : vec4 F32) : bool :=
  Binary32.is_finite (x4 v) && Binary32.is_finite (y4 v)
  && Binary32.is_finite (z4 v) && Binary32.is_finite (w4 v).


(** ** More concrete values *)

Module Example.

(** The scene of [main] with the point selected. *)
Definition point_selected : State (S:=F32) (P:=Binary64Platform.platform) :=
  key_callback Sample.scene GLFW_KEY_SPACE 57 GLFW_PRESS 0.

(** The same with the left button pressed at (100, 100): the point is
    being dragged. *)
Definition dragging_point : State (S:=F32) (P:=Binary64Platform.platform) :=
  mouse_callback point_selected GLFW_MOUSE_BUTTON_LEFT GLFW_PRESS 0 (Sample.cursor 100 100).

(** A collider whose normal has a NaN, and the vector of zeros. *)
Definition nan_plane : Plane (S:=F32) :=
  mkPlane (mkvec3 (S:=F32) S754_nan Sample.zero32 Sample.zero32).

Definition zero_vector : vec3 F32 :=
  mkvec3 (S:=F32) Sample.zero32 (S754_zero true) Sample.zero32.

(** A state in exact arithmetic: both meshes at (3, 5, 7). *)
Definition exact_scene : State (S:=Exact.scalar) (P:=ExactPlatform.platform) :=
  mkState (P:=ExactPlatform.platform)
          Sample.affine_exact Sample.scale_exact Sample.mesh_exact Sample.mesh_exact
          ref_plane
          (mkPlane (mkvec3 (S:=Exact.scalar) (Sample.q 0) (Sample.q 0) (Sample.q 1)))
          false dzero dzero.

(** Division and square root on the rationals; the root is exact on the
    squares of rationals. *)
Definition exact_sqrt (a : Qc) : Qc := Q2Qc (Z.sqrt (Qnum a) # Pos.sqrt (Qden a)).

Definition exact_root : ScalarRoot Exact.scalar :=
  {| fdiv := Qcdiv : @float Exact.scalar -> @float Exact.scalar -> @float Exact.scalar;
     fsqrt := exact_sqrt : @float Exact.scalar -> @float Exact.scalar |}.

(** Cosine and sine with rational values: 3/5 and 4/5 at every angle. *)
Definition cos_35 (a : Qc) : Qc := Q2Qc (3 # 5).
Definition sin_45 (a : Qc) : Qc := Q2Qc (4 # 5).

(** A driver that rejects every source with the same log. *)
Definition rejects (source : string) (shaderType : GLenum) : bool := false.
Definition syntax_error (source : string) (shaderType : GLenum) : string :=
  "0(1) : error C0000: syntax error"%string.

(** The directory with the vertex shader alone, saved with Windows line
    ends. *)
Definition windows_assets : Shader.FileSystem :=
  Shader.one_file Shader.vertex_path Shader.windows_shader.

End Example.

(** * Properties *)

Local Open Scope Z_scope.

(** ** Binary32 arithmetic facts *)

Lemma digits2_pos_shift23 (m : positive) :
  Zpos (digits2_pos (m~0~0~0~0~0~0~0~0~0~0~0~0~0~0~0~0~0~0~0~0~0~0~0))
  = Zpos (digits2_pos m) + 23.
Proof.
  cbn [digits2_pos]. rewrite !Pos2Z.inj_succ. lia.
Qed.

(** Multiplying a finite float by 1.0f returns it: the product of the
    mantissas is shifted back by 23 bits with nothing lost. *)
Lemma mul_one_finite (s : bool) (m : positive) (e : Z) :
  bounded Binary32.prec Binary32.emax m e = true ->
  Binary32.mul (S754_finite s m e) Binary32.one = S754_finite s m e.
Proof.
  intros Hb. unfold bounded, canonical_mantissa in Hb.
  apply andb_true_iff in Hb. destruct Hb as [Hc He].
  apply Z.eqb_eq in Hc.
  unfold Binary32.mul, Binary32.one, SFmul.
  rewrite xorb_false_r, Pos.mul_comm.
  change (8388608 * m)%positive
    with (m~0~0~0~0~0~0~0~0~0~0~0~0~0~0~0~0~0~0~0~0~0~0~0)%positive.
  unfold binary_round_aux, shr_fexp.
  unfold Zdigits2 at 1. rewrite digits2_pos_shift23.
  replace (Z.pos (digits2_pos m) + 23 + (e + -23))
    with (Z.pos (digits2_pos m) + e) by lia.
  rewrite Hc.
  replace (e - (e + -23)) with 23 by lia.
  cbn [shr shr_record_of_loc iter_pos shr_1 shr_m shr_r shr_s
       loc_of_shr_record round_nearest_even orb].
  replace (e + -23 + 23) with e by lia.
  unfold Zdigits2. rewrite Hc, Z.sub_diag.
  cbn [shr shr_record_of_loc shr_m].
  rewrite He. reflexivity.
Qed.

Lemma mul_one (d : spec_float) :
  Binary32.valid d = true -> Binary32.mul d Binary32.one = d.
Proof.
  destruct d as [s | s | | s m e]; intros Hv.
  - destruct s; reflexivity.
  - destruct s; reflexivity.
  - reflexivity.
  - apply mul_one_finite. exact Hv.
Qed.

Lemma sub_zero (d : spec_float) : Binary32.sub d (S754_zero false) = d.
Proof. destruct d as [[|] | [|] | | s m e]; reflexivity. Qed.

(** A finite float minus itself is +0. *)
Lemma sub_diag_finite (d : spec_float) :
  Binary32.is_finite d = true -> Binary32.sub d d = S754_zero false.
Proof.
  destruct d as [[|] | s | | s m e]; intros H; try discriminate; try reflexivity.
  unfold Binary32.sub, SFsub. rewrite Z.sub_diag. reflexivity.
Qed.

(** Zero times a finite float is a zero. *)
Lemma mul_zero_finite (s : bool) (w : spec_float) :
  Binary32.is_finite w = true ->
  Binary32.is_zero (Binary32.mul (S754_zero s) w) = true.
Proof. destruct w; intros H; try discriminate; reflexivity. Qed.

Lemma add_zeros (u v : spec_float) :
  Binary32.is_zero u = true -> Binary32.is_zero v = true ->
  Binary32.is_zero (Binary32.add u v) = true.
Proof.
  destruct u as [[|] | | | ]; try discriminate;
    destruct v as [[|] | | | ]; try discriminate; reflexivity.
Qed.

(** A zero is within the tolerance. *)
Lemma zero_within_tolerance (u : spec_float) :
  Binary32.is_zero u = true ->
  fle (Scalar:=F32) (fabs (Scalar:=F32) u) (fadd FLT_EPSILON (fdecimal 2 3)) = true.
Proof. destruct u; try discriminate; intros _; vm_compute; reflexivity. Qed.

(** ** Componentwise equality *)

Lemma vec3_ext {S : Scalar} (u v : vec3 S) :
  x3 u = x3 v -> y3 u = y3 v -> z3 u = z3 v -> u = v.
Proof. destruct u, v. cbn [x3 y3 z3]. intros -> -> ->. reflexivity. Qed.

Lemma vec4_ext {S : Scalar} (u v : vec4 S) :
  x4 u = x4 v -> y4 u = y4 v -> z4 u = z4 v -> w4 u = w4 v -> u = v.
Proof. destruct u, v. cbn [x4 y4 z4 w4]. intros -> -> -> ->. reflexivity. Qed.

Lemma mat4_ext {S : Scalar} (A B : mat4 S) :
  col0 A = col0 B -> col1 A = col1 B -> col2 A = col2 B -> col3 A = col3 B -> A = B.
Proof.
  destruct A as [a0 a1 a2 a3], B as [b0 b1 b2 b3].
  cbn [col0 col1 col2 col3]. intros -> -> -> ->. reflexivity.
Qed.

(** Binary32 vectors are compared component by component, each component
    being evaluated. *)
Ltac eval_vec3 := apply vec3_ext; vm_compute; reflexivity.
Ltac eval_vec4 := apply vec4_ext; vm_compute; reflexivity.

(** ** The collision test *)

Lemma TestCollision_unfold {S : Scalar} (pCollider : Plane) (M : mat4 S) (p : vec3 S) :
  TestCollision pCollider M p =
  fle (fabs (dot (vec3_sub p (position M)) (worldNormal pCollider M)))
      (fadd FLT_EPSILON (fdecimal 2 3)).
Proof.
  unfold TestCollision, position.
  destruct (fle _ _); reflexivity.
Qed.

Lemma worldNormal_x_plane :
  worldNormal Sample.x_plane Sample.identity32
  = mkvec3 (S:=F32) Binary32.one (S754_zero false) (S754_zero false).
Proof. eval_vec3. Qed.

(** With the plane [Plane()] at the origin the distance of (d, 0, 0) is d. *)
Lemma x_axis_distance (d : spec_float) :
  Binary32.valid d = true ->
  fabs (Scalar:=F32)
       (dot (vec3_sub (Sample.on_x_axis d) (position Sample.identity32))
            (worldNormal Sample.x_plane Sample.identity32))
  = SFabs d.
Proof.
  intros Hv. rewrite worldNormal_x_plane.
  unfold dot, vec3_sub, position, Sample.on_x_axis, Sample.identity32,
    Sample.zero32, mat4_identity, mat4_diag.
  cbn [x3 y3 z3 x4 y4 z4 w4 col3 fsub fmul fadd fabs fzero fone F32].
  rewrite sub_zero, (mul_one d Hv).
  change (Binary32.mul (Binary32.sub (S754_zero false) (S754_zero false))
                       (S754_zero false))
    with (S754_zero false).
  destruct d as [[|] | [|] | | s m e]; reflexivity.
Qed.

(** C1. [TestCollision] returns true exactly when the absolute value of the
    dot product of (p minus the translation column of M) with the world
    normal (M applied to the normal with w = 0) is at most
    [FLT_EPSILON + 0.002f]; this holds whatever the scalar arithmetic is.  In
    binary32, for the plane with normal (1, 0, 0) and the identity model
    matrix, the point (d, 0, 0) collides exactly when |d| is at most
    [FLT_EPSILON + 0.002f]: d = 0, 0.002 and -0.002 collide, d = 0.003 does
    not. *)
Theorem TestCollision_tolerance :
  (forall (S : Scalar) (pCollider : Plane) (M : mat4 S) (p : vec3 S),
      TestCollision pCollider M p = true <->
      fle (fabs (dot (vec3_sub p (position M))
                     (vec3_of (mat4_mul_vec4 M (vec4_of (normal pCollider) fzero)))))
          (fadd FLT_EPSILON (fdecimal 2 3)) = true) /\
  (forall d : spec_float,
      Binary32.valid d = true ->
      (TestCollision Sample.x_plane Sample.identity32 (Sample.on_x_axis d) = true <->
       fle (Scalar:=F32) (fabs (Scalar:=F32) d) (fadd FLT_EPSILON (fdecimal 2 3)) = true)) /\
  TestCollision Sample.x_plane Sample.identity32
    (Sample.on_x_axis (fzero (Scalar:=F32))) = true /\
  TestCollision Sample.x_plane Sample.identity32
    (Sample.on_x_axis (fdecimal (Scalar:=F32) 2 3)) = true /\
  TestCollision Sample.x_plane Sample.identity32
    (Sample.on_x_axis (fneg (Scalar:=F32) (fdecimal 2 3))) = true /\
  TestCollision Sample.x_plane Sample.identity32
    (Sample.on_x_axis (fdecimal (Scalar:=F32) 3 3)) = false.
Proof.
  split; [| split; [| repeat split; vm_compute; reflexivity]].
  - intros S pCollider M p. rewrite TestCollision_unfold. reflexivity.
  - intros d Hv. rewrite TestCollision_unfold, (x_axis_distance d Hv). reflexivity.
Qed.

Lemma TestCollision_tolerance_witness :
  Binary32.valid (fdecimal (Scalar:=F32) 2 3) = true /\
  (TestCollision Sample.x_plane Sample.identity32
     (Sample.on_x_axis (fdecimal (Scalar:=F32) 2 3)) = true <->
   fle (Scalar:=F32) (fabs (Scalar:=F32) (fdecimal 2 3))
       (fadd FLT_EPSILON (fdecimal 2 3)) = true).
Proof.
  split.
  - reflexivity.
  - apply (proj1 (proj2 TestCollision_tolerance)). reflexivity.
Defined.

(** When the point sits at the plane's position the offset is (+0, +0, +0),
    and its dot product with a finite normal is a zero. *)
Lemma dot_of_zero_offset (w : vec3 F32) :
  finite3 w = true ->
  Binary32.is_zero
    (dot (mkvec3 (S:=F32) (S754_zero false) (S754_zero false) (S754_zero false)) w) = true.
Proof.
  unfold finite3. intros H.
  apply andb_true_iff in H. destruct H as [H Hz].
  apply andb_true_iff in H. destruct H as [Hx Hy].
  unfold dot. cbn [x3 y3 z3 fadd fmul F32].
  apply add_zeros; [apply add_zeros |]; apply mul_zero_finite; assumption.
Qed.

(** C3, as the code has it.  Whatever rotation (or other transform) the
    plane's model matrix M carries, a point whose world position equals the
    translation column of M collides, provided that position and the world
    normal computed from M are finite binary32 numbers. *)
Theorem point_at_plane_position_collides :
  forall (pCollider : Plane) (M : mat4 F32),
    finite3 (position M) = true ->
    finite3 (worldNormal pCollider M) = true ->
    TestCollision pCollider M (position M) = true.
Proof.
  intros pCollider M Hp Hn.
  rewrite TestCollision_unfold.
  unfold finite3 in Hp.
  apply andb_true_iff in Hp. destruct Hp as [Hp Hz].
  apply andb_true_iff in Hp. destruct Hp as [Hx Hy].
  unfold vec3_sub. cbn [fsub F32].
  rewrite (sub_diag_finite _ Hx), (sub_diag_finite _ Hy), (sub_diag_finite _ Hz).
  apply zero_within_tolerance, dot_of_zero_offset, Hn.
Qed.

Lemma point_at_plane_position_collides_witness :
  finite3 (position (GetModelMatrix (plane Sample.dragged))) = true /\
  finite3 (worldNormal (planeCollider Sample.dragged)
                       (GetModelMatrix (plane Sample.dragged))) = true /\
  TestCollision (planeCollider Sample.dragged)
                (GetModelMatrix (plane Sample.dragged))
                (position (GetModelMatrix (plane Sample.dragged))) = true.
Proof.
  split; [vm_compute; reflexivity |].
  split; [vm_compute; reflexivity |].
  apply point_at_plane_position_collides; vm_compute; reflexivity.
Defined.

(** A plane whose position has an infinite coordinate: the offset of a point
    at that very position is a NaN and the test answers false. *)
Lemma point_at_plane_position_counterexample :
  position Sample.at_infinity32
    = mkvec3 (S:=F32) (S754_infinity false) (S754_zero false) (S754_zero false) /\
  TestCollision Sample.x_plane Sample.at_infinity32
                (position Sample.at_infinity32) = false.
Proof. split; [eval_vec3 | vm_compute; reflexivity]. Qed.

(** ** Exact arithmetic *)

Section ExactArithmetic.

Context {S : Scalar}.
Hypothesis Hring : ring_theory fzero fone fadd fmul fsub fneg (@eq float).

Add Ring scalar_ring : Hring.

(** Left-multiplying an affine matrix by a translation along X moves its
    translation column and leaves the other columns alone. *)
Lemma translate_affine (M : mat4 S) (t : float) :
  affine M ->
  mat4_mul (translate mat4_identity (mkvec3 t fzero fzero)) M
  = mkmat4 (col0 M) (col1 M) (col2 M)
           (mkvec4 (fadd (x4 (col3 M)) t) (y4 (col3 M)) (z4 (col3 M)) (w4 (col3 M))).
Proof.
  destruct M as [[a0 a1 a2 a3] [b0 b1 b2 b3] [c0 c1 c2 c3] [d0 d1 d2 d3]].
  unfold affine. cbn [col0 col1 col2 col3 w4].
  intros (-> & -> & -> & ->).
  cbv [mat4_mul mat4_mul_col translate mat4_identity mat4_diag vec4_add vec4_scale
       col0 col1 col2 col3 x4 y4 z4 w4 x3 y3 z3].
  repeat f_equal; ring.
Qed.

Lemma mat4_mul_vec4_assoc (A B : mat4 S) (v : vec4 S) :
  mat4_mul_vec4 (mat4_mul A B) v = mat4_mul_vec4 A (mat4_mul_vec4 B v).
Proof.
  destruct A as [[a0 a1 a2 a3] [b0 b1 b2 b3] [c0 c1 c2 c3] [d0 d1 d2 d3]].
  destruct B as [[e0 e1 e2 e3] [f0 f1 f2 f3] [g0 g1 g2 g3] [h0 h1 h2 h3]].
  destruct v as [vx vy vz vw].
  cbv [mat4_mul_vec4 mat4_mul mat4_mul_col vec4_add vec4_scale
       col0 col1 col2 col3 x4 y4 z4 w4].
  f_equal; ring.
Qed.

(** C2, as the code has it.  In exact arithmetic, for a model matrix whose
    bottom row is (0, 0, 0, 1), translating the matrix (on the left) and
    the point by the same (t, 0, 0) leaves the result of [TestCollision]
    unchanged, for any t. *)
Theorem translation_invariance_exact :
  forall (pCollider : Plane) (M : mat4 S) (p : vec3 S) (t : float),
    affine M ->
    TestCollision pCollider
      (mat4_mul (translate mat4_identity (mkvec3 t fzero fzero)) M)
      (vec3_add p (mkvec3 t fzero fzero))
    = TestCollision pCollider M p.
Proof.
  intros pCollider M p t HM.
  rewrite (translate_affine M t HM), !TestCollision_unfold.
  destruct M as [[a0 a1 a2 a3] [b0 b1 b2 b3] [c0 c1 c2 c3] [d0 d1 d2 d3]].
  destruct p as [px py pz]. destruct pCollider as [[nx ny nz]].
  cbv [dot vec3_sub vec3_add position worldNormal vec3_of vec4_of
       mat4_mul_vec4 vec4_add vec4_scale
       col0 col1 col2 col3 x4 y4 z4 w4 x3 y3 z3 normal].
  do 2 f_equal. ring.
Qed.

End ExactArithmetic.

Lemma translation_invariance_exact_witness :
  ring_theory (fzero (Scalar:=Exact.scalar)) fone fadd fmul fsub fneg (@eq Qc) /\
  affine Sample.affine_exact /\
  TestCollision (mkPlane (mkvec3 (S:=Exact.scalar) (Sample.q 0) (Sample.q 0) (Sample.q 1)))
    (mat4_mul (translate mat4_identity
                 (mkvec3 (S:=Exact.scalar) (Sample.q 9) fzero fzero))
              Sample.affine_exact)
    (vec3_add (mkvec3 (S:=Exact.scalar) (Sample.q 3) (Sample.q 4) (Sample.q 7))
              (mkvec3 (S:=Exact.scalar) (Sample.q 9) fzero fzero))
  = TestCollision (mkPlane (mkvec3 (S:=Exact.scalar) (Sample.q 0) (Sample.q 0) (Sample.q 1)))
      Sample.affine_exact
      (mkvec3 (S:=Exact.scalar) (Sample.q 3) (Sample.q 4) (Sample.q 7)).
Proof.
  split; [exact Qcrt |].
  split; [repeat split |].
  apply (translation_invariance_exact (S:=Exact.scalar) Qcrt). repeat split.
Defined.

(** In binary32 the claim fails in two ways.  Rounding: with the plane of
    normal (1, 0, 0) under the identity matrix, the point (0.002, 0, 0)
    collides, and after both are moved by (16, 0, 0) it does not, because
    16 + 0.002 is rounded to a float 0.0020008... away from 16.  A matrix
    that is not affine: with bottom-right element 2, moving matrix and point
    by (1, 0, 0) moves the plane's translation column by 2. *)
Lemma translation_invariance_counterexample :
  (TestCollision Sample.x_plane Sample.identity32
     (Sample.on_x_axis (fdecimal (Scalar:=F32) 2 3)) = true /\
   TestCollision Sample.x_plane
     (mat4_mul (translate mat4_identity (Sample.on_x_axis (Binary32.of_Z 16)))
               Sample.identity32)
     (vec3_add (Sample.on_x_axis (fdecimal (Scalar:=F32) 2 3))
               (Sample.on_x_axis (Binary32.of_Z 16))) = false) /\
  (TestCollision Sample.x_plane Sample.projective32
     (Sample.on_x_axis Sample.zero32) = true /\
   TestCollision Sample.x_plane
     (mat4_mul (translate mat4_identity (Sample.on_x_axis (Binary32.of_Z 1)))
               Sample.projective32)
     (vec3_add (Sample.on_x_axis Sample.zero32)
               (Sample.on_x_axis (Binary32.of_Z 1))) = false).
Proof. repeat split; vm_compute; reflexivity. Qed.

(** ** The model matrix *)

(** C4. [GetModelMatrix] returns the product translation * rotation * scale
    of the matrices the mesh holds when it is called, so a change of a member
    shows in the next call; and in exact arithmetic that product applies the
    scale first, then the rotation, then the translation. *)
Theorem GetModelMatrix_is_TRS :
  forall S : Scalar,
    (forall m : Mesh,
        GetModelMatrix m = mat4_mul (mat4_mul (translation m) (rotation m)) (scale m)) /\
    (forall (m : Mesh) (T R : mat4 S),
        GetModelMatrix (set_translation m T)
          = mat4_mul (mat4_mul T (rotation m)) (scale m) /\
        GetModelMatrix (set_rotation m R)
          = mat4_mul (mat4_mul (translation m) R) (scale m)) /\
    (ring_theory fzero fone fadd fmul fsub fneg (@eq float) ->
     forall (m : Mesh) (v : vec4 S),
        mat4_mul_vec4 (GetModelMatrix m) v
        = mat4_mul_vec4 (translation m)
            (mat4_mul_vec4 (rotation m) (mat4_mul_vec4 (scale m) v))).
Proof.
  intros S.
  split; [reflexivity |].
  split; [intros m T R; split; reflexivity |].
  intros Hring m v. unfold GetModelMatrix.
  rewrite !(mat4_mul_vec4_assoc Hring). reflexivity.
Qed.

Lemma GetModelMatrix_is_TRS_witness :
  ring_theory (fzero (Scalar:=Exact.scalar)) fone fadd fmul fsub fneg (@eq Qc) /\
  mat4_mul_vec4 (GetModelMatrix Sample.mesh_exact)
    (mkvec4 (S:=Exact.scalar) (Sample.q 0) (Sample.q 0) (Sample.q 1) (Sample.q 1))
  = mat4_mul_vec4 (translation Sample.mesh_exact)
      (mat4_mul_vec4 (rotation Sample.mesh_exact)
         (mat4_mul_vec4 (scale Sample.mesh_exact)
            (mkvec4 (S:=Exact.scalar) (Sample.q 0) (Sample.q 0) (Sample.q 1) (Sample.q 1)))).
Proof.
  split; [exact Qcrt |].
  apply (proj2 (proj2 (GetModelMatrix_is_TRS Exact.scalar)) Qcrt).
Defined.

(** ** The constructor *)

(** C5. After the constructor, for any vertex count, vertex array and
    primitive topology, and whatever GL objects exist, the members
    [translation], [rotation] and [scale] are each the identity matrix.
    They are so as [glm::mat4()] made them: the three identity matrices of
    the constructor's body go to local variables of the same names.  [main]
    relies on it at once: in binary32 the translation it gives the plane,
    [glm::translate(plane->translation, (0.15f, 0, 0))], is the pure
    translation to (0.15f, 0, 0), and the point's the one to (-0.15f, 0, 0). *)
Theorem Mesh_ctor_members_identity :
  (forall (S : Scalar) (gl : GLstate) (numVert : Z) (vert : list Vertex)
          (primType : GLenum),
      translation (fst (Mesh_ctor glm_mat4 gl numVert vert primType)) = mat4_identity /\
      rotation (fst (Mesh_ctor glm_mat4 gl numVert vert primType)) = mat4_identity /\
      scale (fst (Mesh_ctor glm_mat4 gl numVert vert primType)) = mat4_identity) /\
  (forall (P : Platform F32) (VP : mat4 F32) (gl : GLstate),
      translation (plane (fst (main_setup (SR:=Binary32.root) glm_mat4 VP gl)))
      = translation_at (Binary32.decimal 15 2) (S754_zero false) (S754_zero false) /\
      translation (point (fst (main_setup (SR:=Binary32.root) glm_mat4 VP gl)))
      = translation_at (SFopp (Binary32.decimal 15 2)) (S754_zero false) (S754_zero false)).
Proof.
  split.
  - intros S gl numVert vert primType.
    unfold Mesh_ctor, glm_mat4, mat4_identity. cbn [fst translation rotation scale].
    repeat split; reflexivity.
  - intros P VP gl. unfold main_setup, Mesh_ctor.
    cbn [fst plane point translation set_translation].
    split; apply mat4_ext; apply vec4_ext; vm_compute; reflexivity.
Qed.

(** ** The selected mesh *)

Section Frame.

Context {S : Scalar} {P : Platform S}.

Lemma selected_set_selected (st : State) (m : Mesh) :
  selected (set_selected st m) = m.
Proof. unfold selected, set_selected. destruct (selectedShape st); reflexivity. Qed.

Lemma selectedShape_set_selected (st : State) (m : Mesh) :
  selectedShape (set_selected st m) = selectedShape st.
Proof. unfold set_selected. destruct (selectedShape st); reflexivity. Qed.

Lemma translation_selected_move (st : State) (delta : vec3 S) :
  translation (selected (move st delta))
  = mat4_mul (translate mat4_identity delta) (translation (selected st)).
Proof. unfold move. rewrite selected_set_selected. reflexivity. Qed.

Lemma key_callback_pressed (action : Z) :
  action = GLFW_PRESS \/ action = GLFW_REPEAT ->
  ((action =? GLFW_PRESS) || (action =? GLFW_REPEAT))%bool = true.
Proof. intros [-> | ->]; reflexivity. Qed.

(** What [key_callback] does for each translation key. *)
Lemma key_callback_move (st : State) (scancode action mods : Z) :
  action = GLFW_PRESS \/ action = GLFW_REPEAT ->
  key_callback st GLFW_KEY_W scancode action mods
    = move st (mkvec3 fzero movementSpeed fzero) /\
  key_callback st GLFW_KEY_S scancode action mods
    = move st (mkvec3 fzero (fneg movementSpeed) fzero) /\
  key_callback st GLFW_KEY_A scancode action mods
    = move st (mkvec3 (fneg movementSpeed) fzero fzero) /\
  key_callback st GLFW_KEY_D scancode action mods
    = move st (mkvec3 movementSpeed fzero fzero) /\
  key_callback st GLFW_KEY_LEFT_CONTROL scancode action mods
    = move st (mkvec3 fzero fzero movementSpeed) /\
  key_callback st GLFW_KEY_LEFT_SHIFT scancode action mods
    = move st (mkvec3 fzero fzero (fneg movementSpeed)).
Proof.
  intros Ha. unfold key_callback.
  rewrite (key_callback_pressed action Ha).
  repeat split; reflexivity.
Qed.

End Frame.

(** ** The keyboard *)

(** C6. On a press or a repeat, each translation key replaces the selected
    mesh's translation by translate(delta) * translation, with delta
    (0, 0.02, 0) for W, (0, -0.02, 0) for S, (-0.02, 0, 0) for A,
    (0.02, 0, 0) for D, (0, 0, 0.02) for Left Control and (0, 0, -0.02) for
    Left Shift, and leaves the selection as it is.  In binary32, from the
    identity translation, D then W gives a translation whose position column
    is (0.02, 0.02, 0). *)
Theorem key_callback_translates :
  (forall (S : Scalar) (P : Platform S) (st : State) (scancode action mods : Z),
      action = GLFW_PRESS \/ action = GLFW_REPEAT ->
      let pressed key := key_callback st key scancode action mods in
      let moved key delta :=
        translation (selected (pressed key))
          = mat4_mul (translate mat4_identity delta) (translation (selected st)) /\
        selectedShape (pressed key) = selectedShape st in
      moved GLFW_KEY_W (mkvec3 fzero (fdecimal 2 2) fzero) /\
      moved GLFW_KEY_S (mkvec3 fzero (fneg (fdecimal 2 2)) fzero) /\
      moved GLFW_KEY_A (mkvec3 (fneg (fdecimal 2 2)) fzero fzero) /\
      moved GLFW_KEY_D (mkvec3 (fdecimal 2 2) fzero fzero) /\
      moved GLFW_KEY_LEFT_CONTROL (mkvec3 fzero fzero (fdecimal 2 2)) /\
      moved GLFW_KEY_LEFT_SHIFT (mkvec3 fzero fzero (fneg (fdecimal 2 2)))) /\
  (forall (P : Platform F32) (st : State) (scancode scancode' mods mods' : Z),
      translation (selected st) = mat4_identity ->
      position
        (translation
           (selected
              (key_callback (key_callback st GLFW_KEY_D scancode GLFW_PRESS mods)
                            GLFW_KEY_W scancode' GLFW_PRESS mods')))
      = mkvec3 (S:=F32) (fdecimal 2 2) (fdecimal 2 2) fzero).
Proof.
  split.
  - intros S P st scancode action mods Ha pressed moved. subst pressed moved.
    cbv beta.
    destruct (key_callback_move st scancode action mods Ha)
      as (-> & -> & -> & -> & -> & ->).
    rewrite !translation_selected_move.
    unfold move. rewrite !selectedShape_set_selected.
    repeat split; reflexivity.
  - intros P st scancode scancode' mods mods' Hid.
    destruct (key_callback_move st scancode GLFW_PRESS mods (or_introl eq_refl))
      as (_ & _ & _ & -> & _).
    destruct (key_callback_move
                (move st (mkvec3 movementSpeed fzero fzero))
                scancode' GLFW_PRESS mods' (or_introl eq_refl))
      as (-> & _).
    rewrite !translation_selected_move, Hid.
    eval_vec3.
Qed.

Lemma key_callback_translates_witness :
  ((GLFW_REPEAT = GLFW_PRESS \/ GLFW_REPEAT = GLFW_REPEAT) /\
   translation (selected (key_callback Sample.scene GLFW_KEY_A 30 GLFW_REPEAT 0))
   = mat4_mul (translate mat4_identity
                 (mkvec3 (S:=F32) (fneg (fdecimal 2 2)) fzero fzero))
              (translation (selected Sample.scene))) /\
  (translation (selected Sample.centred) = mat4_identity /\
   position
     (translation
        (selected
           (key_callback (key_callback Sample.centred GLFW_KEY_D 32 GLFW_PRESS 0)
                         GLFW_KEY_W 17 GLFW_PRESS 0)))
   = mkvec3 (S:=F32) (fdecimal 2 2) (fdecimal 2 2) fzero).
Proof.
  split; split.
  - right. reflexivity.
  - apply (proj1 (proj2 (proj2 (proj1 key_callback_translates F32 _ Sample.scene
                                      30 GLFW_REPEAT 0 (or_intror eq_refl))))).
  - reflexivity.
  - apply (proj2 key_callback_translates). reflexivity.
Defined.

(** ** The frame update *)

Section Update.

Context {S : Scalar} {P : Platform S}.
Variable mat4_default : mat4 S.
Variable rotate : mat4 S -> float -> vec3 S -> mat4 S.

(** The collision branch writes [hue[0][0]] and nothing else. *)
Lemma update_collision_frame (st : State) :
  VP (update_collision st) = VP st /\
  plane (update_collision st) = plane st /\
  point (update_collision st) = point st /\
  selectedShape (update_collision st) = selectedShape st /\
  planeCollider (update_collision st) = planeCollider st /\
  hue (update_collision st)
  = mkmat4
      (mkvec4
         (if TestCollision (planeCollider st) (GetModelMatrix (plane st))
               (position (translation (point st)))
          then fone else fzero)
         (y4 (col0 (hue st))) (z4 (col0 (hue st))) (w4 (col0 (hue st))))
      (col1 (hue st)) (col2 (hue st)) (col3 (hue st)).
Proof.
  unfold update_collision, position.
  destruct (TestCollision _ _ _); repeat split; reflexivity.
Qed.

(** The drag rotation writes the rotation of the selected mesh and the
    recorded cursor position, and nothing else. *)
Lemma update_rotation_frame (st : State) (cursor : double * double) :
  let st' := update_rotation mat4_default rotate st cursor in
  VP st' = VP st /\ hue st' = hue st /\
  selectedShape st' = selectedShape st /\
  planeCollider st' = planeCollider st /\
  translation (plane st') = translation (plane st) /\
  scale (plane st') = scale (plane st) /\
  translation (point st') = translation (point st) /\
  scale (point st') = scale (point st).
Proof.
  unfold update_rotation, set_selected, selected.
  destruct (isMousePressed st); [| repeat split; reflexivity].
  destruct (selectedShape st); repeat split; reflexivity.
Qed.

Lemma update_rotation_released (st : State) (cursor : double * double) :
  isMousePressed st = false ->
  update_rotation mat4_default rotate st cursor = st.
Proof. unfold update_rotation. intros ->. reflexivity. Qed.

Lemma update_rotation_pressed (st : State) (cursor : double * double) :
  isMousePressed st = true ->
  rotation (selected (update_rotation mat4_default rotate st cursor))
  = mat4_mul
      (mat4_mul
         (yaw_of mat4_default rotate
            (float_of_double (dsub (fst cursor) (prevMouseX st))))
         (pitch_of mat4_default rotate
            (float_of_double (dsub (snd cursor) (prevMouseY st)))))
      (rotation (selected st)).
Proof.
  unfold update_rotation. intros ->.
  unfold set_selected, selected.
  destruct (selectedShape st); reflexivity.
Qed.

Lemma selected_update_collision (st : State) :
  selected (update_collision st) = selected st.
Proof.
  unfold selected.
  destruct (update_collision_frame st) as (_ & -> & -> & -> & _).
  reflexivity.
Qed.

End Update.

(** ** [glm::rotate] about a coordinate axis *)

Section ExactRotation.

Context {S : Scalar} {SR : ScalarRoot S}.
Hypothesis Hring : ring_theory fzero fone fadd fmul fsub fneg (@eq float).
Hypothesis Hroot : fdiv fone (fsqrt fone) = fone.
Variable cos sin : float -> float.

Add Ring scalar_ring_rotation : Hring.

(** A coordinate axis has length 1: [glm::normalize] returns it. *)
Lemma normalize_axis (a b c : float) :
  fadd (fadd (fmul a a) (fmul b b)) (fmul c c) = fone ->
  normalize (mkvec3 a b c) = mkvec3 a b c.
Proof.
  intros Hunit. unfold normalize, inversesqrt, dot, vec3_scale.
  cbn [x3 y3 z3]. rewrite Hunit, Hroot.
  apply vec3_ext; cbn [x3 y3 z3]; ring.
Qed.

Lemma glm_rotate_about_Y (angle : float) :
  glm_rotate cos sin mat4_identity angle (mkvec3 fzero fone fzero)
  = spec_rotation_about_Y (cos angle) (sin angle).
Proof.
  unfold glm_rotate. rewrite normalize_axis by ring.
  apply mat4_ext; apply vec4_ext;
    cbv [spec_rotation_about_Y mat4_identity mat4_diag vec4_add vec4_scale
         col0 col1 col2 col3 x4 y4 z4 w4 x3 y3 z3];
    ring.
Qed.

Lemma glm_rotate_about_X (angle : float) :
  glm_rotate cos sin mat4_identity angle (mkvec3 fone fzero fzero)
  = spec_rotation_about_X (cos angle) (sin angle).
Proof.
  unfold glm_rotate. rewrite normalize_axis by ring.
  apply mat4_ext; apply vec4_ext;
    cbv [spec_rotation_about_X mat4_identity mat4_diag vec4_add vec4_scale
         col0 col1 col2 col3 x4 y4 z4 w4 x3 y3 z3];
    ring.
Qed.

End ExactRotation.

(** C7. In every [update], with GLM's [glm::mat4()] and [glm::rotate] and
    the C library's [cos] and [sin]: with the mouse-pressed flag false the
    rotation of both meshes is left unchanged whatever the cursor does; with
    the flag true the selected mesh's rotation becomes
    yaw * pitch * rotation, where yaw is
    [glm::rotate(identity, deltaX * 0.01, (0, 1, 0))] if deltaX is not zero
    and the identity otherwise, and pitch is
    [glm::rotate(identity, deltaY * 0.01, (1, 0, 0))] if deltaY is not zero
    and the identity otherwise; the deltas are the cursor's moves since the
    recorded position, converted to float.  [glm::rotate] hands the angle to
    [cos] and [sin] as it is, that is in radians, and in exact arithmetic its
    result from the identity about (0, 1, 0) and about (1, 0, 0) is the
    rotation matrix of that angle about the Y axis and about the X axis. *)
Theorem update_drag_rotation :
  forall (S : Scalar) (SR : ScalarRoot S) (P : Platform S) (cos sin : float -> float),
    let rotate := glm_rotate cos sin in
    let Y := mkvec3 fzero fone fzero in
    let X := mkvec3 fone fzero fzero in
    (forall (st : State) (cursor : double * double),
        isMousePressed st = false ->
        rotation (plane (update glm_mat4 rotate st cursor)) = rotation (plane st) /\
        rotation (point (update glm_mat4 rotate st cursor)) = rotation (point st)) /\
    (forall (st : State) (cursor : double * double),
        isMousePressed st = true ->
        let deltaMouseX := float_of_double (dsub (fst cursor) (prevMouseX st)) in
        let deltaMouseY := float_of_double (dsub (snd cursor) (prevMouseY st)) in
        let yaw :=
          if feq deltaMouseX fzero then mat4_identity
          else rotate mat4_identity (fmul deltaMouseX (fdecimal 1 2)) Y in
        let pitch :=
          if feq deltaMouseY fzero then mat4_identity
          else rotate mat4_identity (fmul deltaMouseY (fdecimal 1 2)) X in
        rotation (selected (update glm_mat4 rotate st cursor))
        = mat4_mul (mat4_mul yaw pitch) (rotation (selected st))) /\
    (ring_theory fzero fone fadd fmul fsub fneg (@eq float) ->
     fdiv fone (fsqrt fone) = fone ->
     forall angle : float,
       rotate mat4_identity angle Y = spec_rotation_about_Y (cos angle) (sin angle) /\
       rotate mat4_identity angle X = spec_rotation_about_X (cos angle) (sin angle)).
Proof.
  intros S SR P cos sin rotate Y X. split; [| split].
  - intros st cursor Hreleased. unfold update.
    destruct (update_collision_frame (update_rotation glm_mat4 rotate st cursor))
      as (_ & -> & -> & _).
    rewrite (update_rotation_released glm_mat4 rotate st cursor Hreleased).
    split; reflexivity.
  - intros st cursor Hpressed. cbv zeta. unfold update.
    rewrite selected_update_collision.
    rewrite (update_rotation_pressed glm_mat4 rotate st cursor Hpressed).
    unfold yaw_of, pitch_of, rotationSpeed, glm_mat4, mat4_identity.
    destruct (feq _ fzero); destruct (feq _ fzero); reflexivity.
  - intros Hring Hroot angle. split.
    + apply glm_rotate_about_Y; assumption.
    + apply glm_rotate_about_X; assumption.
Qed.

Lemma update_drag_rotation_witness :
  (isMousePressed Sample.scene = false /\
   rotation (plane (update Sample.identity_default Sample.rotate32 Sample.scene
                           (Sample.cursor 110 100)))
   = rotation (plane Sample.scene)) /\
  (isMousePressed Sample.dragging = true /\
   rotation (selected Sample.dragged)
   = mat4_mul
       (mat4_mul
          (Sample.rotate32 mat4_identity
             (fmul (Scalar:=F32) (Binary32.of_Z 10) (fdecimal 1 2))
             (mkvec3 (S:=F32) fzero fone fzero))
          mat4_identity)
       (rotation (selected Sample.dragging))) /\
  (ring_theory (fzero (Scalar:=Exact.scalar)) fone fadd fmul fsub fneg (@eq Qc) /\
   fdiv (ScalarRoot:=Example.exact_root) fone
     (fsqrt (ScalarRoot:=Example.exact_root) fone) = fone /\
   glm_rotate (SR:=Example.exact_root) Example.cos_35 Example.sin_45 mat4_identity
     (Sample.q 1) (mkvec3 (S:=Exact.scalar) fzero fone fzero)
   = spec_rotation_about_Y (S:=Exact.scalar)
       (Example.cos_35 (Sample.q 1)) (Example.sin_45 (Sample.q 1))).
Proof.
  split; [| split].
  - split; [reflexivity |].
    exact (proj1 (proj1 (update_drag_rotation F32 Binary32.root _
                           Binary32.cos_taylor Binary32.sin_taylor)
                        Sample.scene (Sample.cursor 110 100) eq_refl)).
  - split; [reflexivity |].
    exact (proj1 (proj2 (update_drag_rotation F32 Binary32.root _
                           Binary32.cos_taylor Binary32.sin_taylor))
                 Sample.dragging (Sample.cursor 110 100) eq_refl).
  - assert (Hroot : fdiv (ScalarRoot:=Example.exact_root) fone
     (fsqrt (ScalarRoot:=Example.exact_root) fone) = fone)
      by reflexivity.
    split; [exact Qcrt |]. split; [exact Hroot |].
    exact (proj1 (proj2 (proj2 (update_drag_rotation Exact.scalar Example.exact_root
                                  ExactPlatform.platform Example.cos_35 Example.sin_45))
                        Qcrt Hroot (Sample.q 1))).
Defined.

(** C10. [update] leaves the translation and the scale of both meshes, the
    plane collider and the view-projection matrix unchanged; of the hue
    matrix it writes the element [0][0] alone, 1.0 when [TestCollision]
    reports a collision between the plane and the point as they are after the
    drag rotation and 0.0 otherwise. *)
Theorem update_frame :
  forall (S : Scalar) (P : Platform S) (mat4_default : mat4 S)
         (rotate : mat4 S -> float -> vec3 S -> mat4 S)
         (st : State) (cursor : double * double),
    translation (plane (update mat4_default rotate st cursor)) = translation (plane st) /\
    scale (plane (update mat4_default rotate st cursor)) = scale (plane st) /\
    translation (point (update mat4_default rotate st cursor)) = translation (point st) /\
    scale (point (update mat4_default rotate st cursor)) = scale (point st) /\
    normal (planeCollider (update mat4_default rotate st cursor))
      = normal (planeCollider st) /\
    VP (update mat4_default rotate st cursor) = VP st /\
    hue (update mat4_default rotate st cursor)
    = mkmat4
        (mkvec4
           (if TestCollision
                 (planeCollider (update mat4_default rotate st cursor))
                 (GetModelMatrix (plane (update mat4_default rotate st cursor)))
                 (position (translation (point (update mat4_default rotate st cursor))))
            then fone else fzero)
           (y4 (col0 (hue st))) (z4 (col0 (hue st))) (w4 (col0 (hue st))))
        (col1 (hue st)) (col2 (hue st)) (col3 (hue st)).
Proof.
  intros S P mat4_default rotate st cursor. unfold update.
  destruct (update_collision_frame (update_rotation mat4_default rotate st cursor))
    as (-> & -> & -> & _ & -> & ->).
  destruct (update_rotation_frame mat4_default rotate st cursor)
    as (-> & -> & _ & -> & -> & -> & -> & ->).
  repeat split; reflexivity.
Qed.

(** ** The plane collider of the scene *)

(** C9. The first three plane vertices are (0, 1, 1), (0, -1, 1) and
    (0, -1, -1); edge1 is (0, 2, 0) and edge2 is (0, 0, 2); the collider
    normal [main] builds is normalize(cross(edge1, edge2)), which in binary32
    is exactly (1, 0, 0), of length exactly 1. *)
Theorem planeCollider_normal_is_x_axis :
  forall (P : Platform F32) (mat4_default VP : mat4 F32) (gl : GLstate),
    map (fun v : Vertex => mkvec3 (S:=F32) (x v) (y v) (z v)) (firstn 3 planeVerts)
      = [ mkvec3 (S:=F32) fzero fone fone;
          mkvec3 (S:=F32) fzero (fneg fone) fone;
          mkvec3 (S:=F32) fzero (fneg fone) (fneg fone) ] /\
    edge1 = mkvec3 (S:=F32) fzero (fdecimal 2 0) fzero /\
    edge2 = mkvec3 (S:=F32) fzero fzero (fdecimal 2 0) /\
    normal (planeCollider (fst (main_setup (SR:=Binary32.root) mat4_default VP gl)))
      = normalize (SR:=Binary32.root) (cross edge1 edge2) /\
    normal (planeCollider (fst (main_setup (SR:=Binary32.root) mat4_default VP gl)))
      = mkvec3 (S:=F32) fone fzero fzero /\
    length3 (SR:=Binary32.root)
      (normal (planeCollider (fst (main_setup (SR:=Binary32.root) mat4_default VP gl))))
      = fone.
Proof.
  intros P mat4_default VP gl.
  assert (Hn : normal (planeCollider
                         (fst (main_setup (SR:=Binary32.root) mat4_default VP gl)))
               = normalize (SR:=Binary32.root) (cross edge1 edge2)) by reflexivity.
  rewrite Hn.
  split; [reflexivity |].
  split; [eval_vec3 |].
  split; [eval_vec3 |].
  split; [reflexivity |].
  split; [eval_vec3 | vm_compute; reflexivity].
Qed.

(** ** The shader source loader *)

Section ShaderFacts.

Import Shader.
Local Open Scope string_scope.

Lemma c_str_nul_free (s : string) : nul_free s = true -> c_str s = s.
Proof.
  induction s as [| c rest IH]; [reflexivity |].
  cbn [nul_free c_str]. intros H.
  apply andb_true_iff in H. destruct H as [Hc Hrest].
  apply negb_true_iff in Hc. rewrite Hc, (IH Hrest). reflexivity.
Qed.

Lemma substring_all (s : string) : substring 0 (String.length s) s = s.
Proof.
  induction s as [| c rest IH]; [reflexivity |].
  cbn [String.length substring]. rewrite IH. reflexivity.
Qed.

Lemma substring_none (s : string) : substring 0 0 s = "".
Proof. destruct s; reflexivity. Qed.

Lemma append_empty (s : string) : s ++ "" = s.
Proof.
  induction s as [| c rest IH]; [reflexivity |].
  cbn [append]. rewrite IH. reflexivity.
Qed.

(** Reading as many characters as the stream delivers returns them. *)
Lemma read_into_all (s : string) : read_into (String.length s) s = s.
Proof.
  unfold read_into. rewrite substring_all, Nat.sub_diag.
  apply append_empty.
Qed.

Lemma length_iter_String (c : ascii) (n : positive) :
  String.length (Pos.iter (String c) "" n) = Pos.to_nat n.
Proof.
  induction n as [| n IH] using Pos.peano_ind.
  - reflexivity.
  - rewrite Pos.iter_succ, Pos2Nat.inj_succ. cbn [String.length].
    rewrite IH. reflexivity.
Qed.

Lemma iter_String_nonempty (c : ascii) (n : positive) :
  Pos.iter (String c) "" n <> "".
Proof.
  intros H. apply (f_equal String.length) in H.
  rewrite length_iter_String in H. cbn [String.length] in H.
  pose proof (Pos2Nat.is_pos n) as Hn. rewrite H in Hn.
  exact (Nat.lt_irrefl 0 Hn).
Qed.

(** A file whose size is a multiple of 2^32 is returned as the empty
    string. *)
Lemma readShader_size_wraps (text_mode : string -> string) (fs : FileSystem)
      (fileName bytes : string) (n : positive) :
  fs fileName = Some bytes ->
  String.length bytes = Pos.to_nat n ->
  (Zpos n mod 2 ^ 32 = 0)%Z ->
  outcome (readShader text_mode fs fileName) = Returns "".
Proof.
  intros Hfs Hlen Hmod. unfold readShader. rewrite Hfs, Hlen.
  rewrite positive_nat_Z, Hmod.
  cbn [outcome Z.to_nat]. unfold read_into.
  rewrite substring_none. reflexivity.
Qed.

End ShaderFacts.

(** C8, as the code has it.  When the file cannot be opened, [readShader]
    prints "Can't read file: ", the path as a C string and a line end, and
    returns the empty string by an ordinary return; a path without a NUL
    character is printed whole.  When the file can be opened it prints
    nothing and returns a string of (size mod 2^32) characters: the
    characters the text-mode stream delivers, then NULs.  That string is the
    content of the file when the stream delivers the bytes untranslated and
    the size is below 2^32. *)
Theorem readShader_result :
  forall (text_mode : string -> string) (fs : Shader.FileSystem) (fileName : string),
    (fs fileName = None ->
     Shader.readShader text_mode fs fileName
     = Shader.mkResult
         ("Can't read file: " ++ Shader.c_str fileName ++ Shader.endl)%string
         (Shader.Returns "")) /\
    (fs fileName = None ->
     Shader.nul_free fileName = true ->
     Shader.printed (Shader.readShader text_mode fs fileName)
     = ("Can't read file: " ++ fileName ++ Shader.endl)%string) /\
    (forall bytes : string,
        fs fileName = Some bytes ->
        Shader.readShader text_mode fs fileName
        = Shader.mkResult ""
            (Shader.Returns
               (Shader.read_into
                  (Z.to_nat (Z.of_nat (String.length bytes) mod 2 ^ 32))
                  (text_mode bytes)))) /\
    (forall bytes : string,
        fs fileName = Some bytes ->
        text_mode bytes = bytes ->
        (Z.of_nat (String.length bytes) < 2 ^ 32)%Z ->
        Shader.readShader text_mode fs fileName
        = Shader.mkResult "" (Shader.Returns bytes)).
Proof.
  intros text_mode fs fileName. split; [| split; [| split]].
  - intros Hfs. unfold Shader.readShader. rewrite Hfs. reflexivity.
  - intros Hfs Hnul. unfold Shader.readShader. rewrite Hfs.
    cbn [Shader.printed]. rewrite (c_str_nul_free fileName Hnul). reflexivity.
  - intros bytes Hfs. unfold Shader.readShader. rewrite Hfs. reflexivity.
  - intros bytes Hfs Htext Hsize. unfold Shader.readShader. rewrite Hfs, Htext.
    rewrite Z.mod_small by lia.
    rewrite Nat2Z.id, read_into_all. reflexivity.
Qed.

Lemma readShader_result_witness :
  (Shader.one_file Shader.vertex_path Shader.unix_shader Shader.fragment_path = None /\
   Shader.nul_free Shader.fragment_path = true /\
   Shader.printed
     (Shader.readShader Shader.posix_text_mode
        (Shader.one_file Shader.vertex_path Shader.unix_shader) Shader.fragment_path)
   = ("Can't read file: " ++ Shader.fragment_path ++ Shader.endl)%string) /\
  (Shader.one_file Shader.vertex_path Shader.unix_shader Shader.vertex_path
   = Some Shader.unix_shader /\
   Shader.posix_text_mode Shader.unix_shader = Shader.unix_shader /\
   (Z.of_nat (String.length Shader.unix_shader) < 2 ^ 32)%Z /\
   Shader.readShader Shader.posix_text_mode
     (Shader.one_file Shader.vertex_path Shader.unix_shader) Shader.vertex_path
   = Shader.mkResult "" (Shader.Returns Shader.unix_shader)).
Proof.
  split.
  - split; [reflexivity |]. split; [reflexivity |].
    apply (proj1 (proj2 (readShader_result Shader.posix_text_mode
                           (Shader.one_file Shader.vertex_path Shader.unix_shader)
                           Shader.fragment_path)));
      reflexivity.
  - split; [reflexivity |]. split; [reflexivity |]. split; [reflexivity |].
    apply (proj2 (proj2 (proj2 (readShader_result Shader.posix_text_mode
                                  (Shader.one_file Shader.vertex_path Shader.unix_shader)
                                  Shader.vertex_path))));
      reflexivity.
Defined.

(** Two files that can be opened and are not returned verbatim.  A shader
    with Windows line ends read through a stream that delivers CR LF as LF:
    the result has the line ends changed and two NUL characters at its end.
    A file of 2^32 bytes: the size wraps to 0 and the result is empty. *)
Lemma readShader_verbatim_counterexample :
  (Shader.outcome
     (Shader.readShader Shader.crlf_text_mode
        (Shader.one_file Shader.vertex_path Shader.windows_shader) Shader.vertex_path)
   = Shader.Returns (Shader.unix_shader ++ Shader.nul_string 2)%string /\
   (Shader.unix_shader ++ Shader.nul_string 2)%string <> Shader.windows_shader) /\
  (Shader.outcome
     (Shader.readShader Shader.posix_text_mode
        (Shader.one_file Shader.huge_path Shader.huge_file) Shader.huge_path)
   = Shader.Returns "" /\
   Shader.huge_file <> ""%string).
Proof.
  split; split.
  - vm_compute. reflexivity.
  - intros H. vm_compute in H. discriminate H.
  - apply (readShader_size_wraps Shader.posix_text_mode _ Shader.huge_path
             Shader.huge_file Shader.four_gib).
    + reflexivity.
    + apply length_iter_String.
    + reflexivity.
  - apply iter_String_nonempty.
Qed.

(** * More properties *)

(** ** The callbacks *)

Section Callbacks.

Context {S : Scalar} {P : Platform S}.

Lemma set_translation_same (m : Mesh) : set_translation m (translation m) = m.
Proof. destruct m; reflexivity. Qed.

Lemma set_selected_same (st : State) : set_selected st (selected st) = st.
Proof. destruct st as [v h pl pt [|] c pr mx my]; reflexivity. Qed.

(** A key event does nothing, or swaps the selection, or moves the selected
    mesh. *)
Lemma key_callback_cases (st : State) (key scancode action mods : Z) :
  key_callback st key scancode action mods = st \/
  key_callback st key scancode action mods
    = set_selectedShape st
        (match selectedShape st with
         | ref_plane => ref_point
         | ref_point => ref_plane
         end) \/
  exists delta : vec3 S, key_callback st key scancode action mods = move st delta.
Proof.
  unfold key_callback.
  destruct ((action =? GLFW_PRESS) || (action =? GLFW_REPEAT))%bool; [| left; reflexivity].
  destruct (key =? GLFW_KEY_SPACE) eqn:Hspace.
  { apply Z.eqb_eq in Hspace. subst key. right. left. reflexivity. }
  destruct (key =? GLFW_KEY_W) eqn:Hw.
  { apply Z.eqb_eq in Hw. subst key. right. right. eexists. reflexivity. }
  destruct (key =? GLFW_KEY_A) eqn:Ha.
  { apply Z.eqb_eq in Ha. subst key. right. right. eexists. reflexivity. }
  destruct (key =? GLFW_KEY_S) eqn:Hs.
  { apply Z.eqb_eq in Hs. subst key. right. right. eexists. reflexivity. }
  destruct (key =? GLFW_KEY_D) eqn:Hd.
  { apply Z.eqb_eq in Hd. subst key. right. right. eexists. reflexivity. }
  destruct (key =? GLFW_KEY_LEFT_CONTROL) eqn:Hc.
  { apply Z.eqb_eq in Hc. subst key. right. right. eexists. reflexivity. }
  destruct (key =? GLFW_KEY_LEFT_SHIFT) eqn:Hl.
  { apply Z.eqb_eq in Hl. subst key. right. right. eexists. reflexivity. }
  left. reflexivity.
Qed.

(** X1. Whatever the key and the action, [key_callback] leaves the
    view-projection matrix, the hue, the collider and the mouse state alone;
    the mesh that is not selected when the event arrives is unchanged, and
    the selected one changes in its translation at most. *)
Theorem key_callback_frame :
  forall (st : State) (key scancode action mods : Z),
    VP (key_callback st key scancode action mods) = VP st /\
    hue (key_callback st key scancode action mods) = hue st /\
    planeCollider (key_callback st key scancode action mods) = planeCollider st /\
    isMousePressed (key_callback st key scancode action mods) = isMousePressed st /\
    prevMouseX (key_callback st key scancode action mods) = prevMouseX st /\
    prevMouseY (key_callback st key scancode action mods) = prevMouseY st /\
    match selectedShape st with
    | ref_plane =>
        point (key_callback st key scancode action mods) = point st /\
        exists T : mat4 S,
          plane (key_callback st key scancode action mods) = set_translation (plane st) T
    | ref_point =>
        plane (key_callback st key scancode action mods) = plane st /\
        exists T : mat4 S,
          point (key_callback st key scancode action mods) = set_translation (point st) T
    end.
Proof.
  intros st key scancode action mods.
  destruct (key_callback_cases st key scancode action mods) as [-> | [-> | [delta ->]]].
  - repeat split; try reflexivity.
    destruct (selectedShape st); (split; [reflexivity |]);
      eexists; symmetry; apply set_translation_same.
  - repeat split; try reflexivity.
    destruct (selectedShape st); (split; [reflexivity |]);
      eexists; symmetry; apply set_translation_same.
  - unfold move, set_selected, selected.
    destruct (selectedShape st); repeat split; try reflexivity;
      eexists; reflexivity.
Qed.

(** X2. An event that is neither a press nor a repeat, and a press of a key
    other than Space, W, A, S, D, Left Control and Left Shift, leave the
    whole state as it is. *)
Theorem key_callback_ignores :
  forall (st : State) (key scancode action mods : Z),
    (action <> GLFW_PRESS /\ action <> GLFW_REPEAT ->
     key_callback st key scancode action mods = st) /\
    (~ In key [GLFW_KEY_SPACE; GLFW_KEY_W; GLFW_KEY_A; GLFW_KEY_S; GLFW_KEY_D;
               GLFW_KEY_LEFT_CONTROL; GLFW_KEY_LEFT_SHIFT] ->
     key_callback st key scancode action mods = st).
Proof.
  intros st key scancode action mods. split.
  - intros [Hp Hr]. unfold key_callback.
    apply Z.eqb_neq in Hp. apply Z.eqb_neq in Hr. rewrite Hp, Hr. reflexivity.
  - intros Hkey. unfold key_callback.
    destruct ((action =? GLFW_PRESS) || (action =? GLFW_REPEAT))%bool; [| reflexivity].
    cbn [In] in Hkey.
    assert (Hne : forall k, (k = key -> False) -> (key =? k) = false).
    { intros k Hk. apply Z.eqb_neq. intros ->. apply Hk. reflexivity. }
    rewrite !Hne by (intros Hk; apply Hkey; tauto).
    reflexivity.
Qed.

Lemma key_callback_space (st : State) (scancode action mods : Z) :
  action = GLFW_PRESS \/ action = GLFW_REPEAT ->
  key_callback st GLFW_KEY_SPACE scancode action mods
  = set_selectedShape st
      (match selectedShape st with
       | ref_plane => ref_point
       | ref_point => ref_plane
       end).
Proof.
  intros Ha. unfold key_callback.
  rewrite (key_callback_pressed action Ha). reflexivity.
Qed.

(** X3. A press of Space swaps the selection and touches nothing else; a
    second press gives back the state before the first. *)
Theorem space_toggles_selection :
  forall (st : State) (scancode scancode' action action' mods mods' : Z),
    action = GLFW_PRESS \/ action = GLFW_REPEAT ->
    action' = GLFW_PRESS \/ action' = GLFW_REPEAT ->
    selectedShape (key_callback st GLFW_KEY_SPACE scancode action mods)
      = match selectedShape st with
        | ref_plane => ref_point
        | ref_point => ref_plane
        end /\
    plane (key_callback st GLFW_KEY_SPACE scancode action mods) = plane st /\
    point (key_callback st GLFW_KEY_SPACE scancode action mods) = point st /\
    key_callback (key_callback st GLFW_KEY_SPACE scancode action mods)
                 GLFW_KEY_SPACE scancode' action' mods' = st.
Proof.
  intros st scancode scancode' action action' mods mods' Ha Ha'.
  rewrite !key_callback_space by assumption.
  destruct st as [v h pl pt [|] c pr mx my]; repeat split; reflexivity.
Qed.

(** X4. After a mouse event the pressed flag is true exactly when the event
    is a press of the left button; the recorded cursor position is the one
    read at the event, and meshes, selection, hue, collider and
    view-projection matrix are unchanged. *)
Theorem mouse_callback_sets_flag :
  forall (st : State) (button action mods : Z) (cursor : double * double),
    (isMousePressed (mouse_callback st button action mods cursor) = true <->
     button = GLFW_MOUSE_BUTTON_LEFT /\ action = GLFW_PRESS) /\
    prevMouseX (mouse_callback st button action mods cursor) = fst cursor /\
    prevMouseY (mouse_callback st button action mods cursor) = snd cursor /\
    plane (mouse_callback st button action mods cursor) = plane st /\
    point (mouse_callback st button action mods cursor) = point st /\
    selectedShape (mouse_callback st button action mods cursor) = selectedShape st /\
    hue (mouse_callback st button action mods cursor) = hue st /\
    planeCollider (mouse_callback st button action mods cursor) = planeCollider st /\
    VP (mouse_callback st button action mods cursor) = VP st.
Proof.
  intros st button action mods cursor.
  split; [| repeat split; reflexivity].
  unfold mouse_callback, set_mouse. cbn [isMousePressed].
  destruct (Z.eqb_spec button GLFW_MOUSE_BUTTON_LEFT) as [Hb | Hb];
    destruct (Z.eqb_spec action GLFW_PRESS) as [Ha | Ha];
    split; try discriminate; tauto.
Qed.

End Callbacks.

Lemma key_callback_ignores_witness :
  ((GLFW_RELEASE <> GLFW_PRESS /\ GLFW_RELEASE <> GLFW_REPEAT) /\
   key_callback Sample.scene GLFW_KEY_W 17 GLFW_RELEASE 0 = Sample.scene) /\
  (~ In 81 [GLFW_KEY_SPACE; GLFW_KEY_W; GLFW_KEY_A; GLFW_KEY_S; GLFW_KEY_D;
                         GLFW_KEY_LEFT_CONTROL; GLFW_KEY_LEFT_SHIFT] /\
   key_callback Sample.scene 81 16 GLFW_PRESS 0 = Sample.scene).
Proof.
  assert (Hrelease : GLFW_RELEASE <> GLFW_PRESS /\ GLFW_RELEASE <> GLFW_REPEAT)
    by (split; discriminate).
  assert (Hkey : ~ In 81
                     [GLFW_KEY_SPACE; GLFW_KEY_W; GLFW_KEY_A; GLFW_KEY_S; GLFW_KEY_D;
                      GLFW_KEY_LEFT_CONTROL; GLFW_KEY_LEFT_SHIFT]).
  { cbn [In]. intros [H | [H | [H | [H | [H | [H | [H | []]]]]]]]; discriminate H. }
  split; split.
  - exact Hrelease.
  - exact (proj1 (key_callback_ignores Sample.scene GLFW_KEY_W 17 GLFW_RELEASE 0) Hrelease).
  - exact Hkey.
  - exact (proj2 (key_callback_ignores Sample.scene 81 16 GLFW_PRESS 0) Hkey).
Defined.

Lemma space_toggles_selection_witness :
  (GLFW_PRESS = GLFW_PRESS \/ GLFW_PRESS = GLFW_REPEAT) /\
  (GLFW_REPEAT = GLFW_PRESS \/ GLFW_REPEAT = GLFW_REPEAT) /\
  selectedShape (key_callback Sample.scene GLFW_KEY_SPACE 57 GLFW_PRESS 0) = ref_point /\
  key_callback (key_callback Sample.scene GLFW_KEY_SPACE 57 GLFW_PRESS 0)
               GLFW_KEY_SPACE 57 GLFW_REPEAT 0 = Sample.scene.
Proof.
  split; [left; reflexivity |]. split; [right; reflexivity |].
  pose proof (space_toggles_selection Sample.scene 57 57 GLFW_PRESS GLFW_REPEAT 0 0
                (or_introl eq_refl) (or_intror eq_refl)) as (Hsel & _ & _ & Hback).
  split; [exact Hsel | exact Hback].
Defined.

(** ** The frame update and the loop *)

Section Frames.

Context {S : Scalar} {P : Platform S}.
Variable mat4_default : mat4 S.
Variable rotate : mat4 S -> float -> vec3 S -> mat4 S.

(** The collision branch is idempotent: it reads nothing it writes. *)
Lemma update_collision_twice (st : State) :
  update_collision (update_collision st) = update_collision st.
Proof.
  unfold update_collision.
  destruct (TestCollision (planeCollider st) _ _) eqn:Hc; cbn [planeCollider plane point set_hue00];
    rewrite Hc; reflexivity.
Qed.

(** X5. With the mouse button released, [update] does not look at the
    cursor, and running it again changes nothing more: the state after two
    updates is the state after one. *)
Theorem update_released_idempotent :
  forall (st : State) (cursor cursor' : double * double),
    isMousePressed st = false ->
    update mat4_default rotate st cursor = update mat4_default rotate st cursor' /\
    update mat4_default rotate (update mat4_default rotate st cursor) cursor'
    = update mat4_default rotate st cursor.
Proof.
  intros st cursor cursor' Hreleased. unfold update.
  rewrite !(update_rotation_released mat4_default rotate st _ Hreleased).
  split; [reflexivity |].
  assert (Hflag : isMousePressed (update_collision st) = false).
  { unfold update_collision. destruct (TestCollision _ _ _); exact Hreleased. }
  rewrite (update_rotation_released mat4_default rotate _ cursor' Hflag).
  apply update_collision_twice.
Qed.

(** X6. While the point is the selected mesh, a drag turns the point and
    cannot change the collision flag: the hue after [update] is the hue the
    collision branch alone computes from the state before, and the plane
    and the point's translation are untouched. *)
Theorem dragging_the_point_keeps_the_flag :
  forall (st : State) (cursor : double * double),
    selectedShape st = ref_point ->
    hue (update mat4_default rotate st cursor) = hue (update_collision st) /\
    plane (update mat4_default rotate st cursor) = plane st /\
    translation (point (update mat4_default rotate st cursor)) = translation (point st).
Proof.
  intros st cursor Hsel. unfold update, update_rotation.
  destruct (isMousePressed st).
  - unfold set_selected, selected. rewrite Hsel.
    unfold update_collision. cbn [planeCollider plane point translation set_mouse set_rotation].
    destruct (TestCollision _ _ _); repeat split; reflexivity.
  - unfold update_collision. destruct (TestCollision _ _ _); repeat split; reflexivity.
Qed.

End Frames.

Lemma update_released_idempotent_witness :
  isMousePressed Sample.scene = false /\
  update Sample.identity_default Sample.rotate32
    (update Sample.identity_default Sample.rotate32 Sample.scene (Sample.cursor 100 100))
    (Sample.cursor 110 100)
  = update Sample.identity_default Sample.rotate32 Sample.scene (Sample.cursor 100 100).
Proof.
  split; [reflexivity |].
  exact (proj2 (update_released_idempotent Sample.identity_default Sample.rotate32
                  Sample.scene (Sample.cursor 100 100) (Sample.cursor 110 100) eq_refl)).
Defined.

Lemma dragging_the_point_keeps_the_flag_witness :
  selectedShape Example.dragging_point = ref_point /\
  isMousePressed Example.dragging_point = true /\
  rotation (point (update Sample.identity_default Sample.rotate32 Example.dragging_point
                     (Sample.cursor 110 100)))
  <> rotation (point Example.dragging_point) /\
  hue (update Sample.identity_default Sample.rotate32 Example.dragging_point
         (Sample.cursor 110 100))
  = hue (update_collision Example.dragging_point) /\
  plane (update Sample.identity_default Sample.rotate32 Example.dragging_point
           (Sample.cursor 110 100))
  = plane Example.dragging_point /\
  translation (point (update Sample.identity_default Sample.rotate32 Example.dragging_point
                        (Sample.cursor 110 100)))
  = translation (point Example.dragging_point).
Proof.
  split; [reflexivity |]. split; [reflexivity |].
  split.
  - intros H.
    apply (f_equal (fun m : mat4 F32 => x4 (col0 m))) in H.
    vm_compute in H. discriminate H.
  - exact (dragging_the_point_keeps_the_flag Sample.identity_default Sample.rotate32
             Example.dragging_point (Sample.cursor 110 100) eq_refl).
Defined.

(** ** A drag, from the press to the release *)

Section Drag.

Context {S : Scalar} {P : Platform S}.
Variable mat4_default : mat4 S.
Variable rotate : mat4 S -> float -> vec3 S -> mat4 S.

(** The mouse state after an update with the button held. *)
Lemma update_pressed_mouse (st : State) (cursor : double * double) :
  isMousePressed st = true ->
  isMousePressed (update mat4_default rotate st cursor) = true /\
  prevMouseX (update mat4_default rotate st cursor) = fst cursor /\
  prevMouseY (update mat4_default rotate st cursor) = snd cursor.
Proof.
  intros Hpressed. unfold update, update_collision, update_rotation.
  rewrite Hpressed. unfold set_selected.
  destruct (selectedShape st); cbn [isMousePressed set_mouse];
    destruct (TestCollision _ _ _); repeat split; try reflexivity; exact Hpressed.
Qed.

Lemma update_pressed_rotation (st : State) (cursor : double * double) :
  isMousePressed st = true ->
  rotation (selected (update mat4_default rotate st cursor))
  = mat4_mul
      (mat4_mul
         (yaw_of mat4_default rotate (float_of_double (dsub (fst cursor) (prevMouseX st))))
         (pitch_of mat4_default rotate (float_of_double (dsub (snd cursor) (prevMouseY st)))))
      (rotation (selected st)).
Proof.
  intros Hpressed. unfold update.
  rewrite selected_update_collision.
  apply update_rotation_pressed. exact Hpressed.
Qed.

(** X7. A drag is measured from where the button went down: after a press
    of the left button with the cursor at c0, the next [update], with the
    cursor at c, turns the selected mesh by the yaw and pitch of c - c0,
    whatever position was recorded before the press; and after any other
    mouse event [update] leaves both rotations alone. *)
Theorem drag_starts_at_the_press :
  forall (st : State) (mods : Z) (c0 c : double * double),
    rotation (selected (update mat4_default rotate
                          (mouse_callback st GLFW_MOUSE_BUTTON_LEFT GLFW_PRESS mods c0) c))
    = mat4_mul
        (mat4_mul
           (yaw_of mat4_default rotate (float_of_double (dsub (fst c) (fst c0))))
           (pitch_of mat4_default rotate (float_of_double (dsub (snd c) (snd c0)))))
        (rotation (selected st)) /\
    (forall button action : Z,
        ~ (button = GLFW_MOUSE_BUTTON_LEFT /\ action = GLFW_PRESS) ->
        rotation (plane (update mat4_default rotate
                           (mouse_callback st button action mods c0) c))
        = rotation (plane st) /\
        rotation (point (update mat4_default rotate
                           (mouse_callback st button action mods c0) c))
        = rotation (point st)).
Proof.
  intros st mods c0 c. split.
  - rewrite update_pressed_rotation by reflexivity. reflexivity.
  - intros button action Hother.
    assert (Hreleased : isMousePressed (mouse_callback st button action mods c0) = false).
    { unfold mouse_callback, set_mouse. cbn [isMousePressed].
      destruct (Z.eqb_spec button GLFW_MOUSE_BUTTON_LEFT) as [Hb | Hb]; [| reflexivity].
      destruct (Z.eqb_spec action GLFW_PRESS) as [Ha | Ha]; [| reflexivity].
      exfalso. apply Hother. split; assumption. }
    unfold update.
    rewrite (update_rotation_released mat4_default rotate _ c Hreleased).
    destruct (update_collision_frame (mouse_callback st button action mods c0))
      as (_ & -> & -> & _).
    split; reflexivity.
Qed.

(** X8. While the button stays down every frame turns the selected mesh by
    the cursor's move since the frame before: the button is still down after
    [update], the recorded position is the cursor of that frame, and a
    second [update] composes its yaw and pitch, taken from the difference of
    the two cursors, on the left of the first. *)
Theorem drag_is_incremental :
  forall (st : State) (c c' : double * double),
    isMousePressed st = true ->
    let yaw_pitch (from to : double * double) :=
      mat4_mul
        (yaw_of mat4_default rotate (float_of_double (dsub (fst to) (fst from))))
        (pitch_of mat4_default rotate (float_of_double (dsub (snd to) (snd from)))) in
    isMousePressed (update mat4_default rotate st c) = true /\
    prevMouseX (update mat4_default rotate st c) = fst c /\
    prevMouseY (update mat4_default rotate st c) = snd c /\
    rotation (selected (update mat4_default rotate (update mat4_default rotate st c) c'))
    = mat4_mul (yaw_pitch c c')
        (mat4_mul (yaw_pitch (prevMouseX st, prevMouseY st) c) (rotation (selected st))).
Proof.
  intros st c c' Hpressed yaw_pitch.
  destruct (update_pressed_mouse st c Hpressed) as (Hflag & Hx & Hy).
  repeat split; try assumption.
  rewrite (update_pressed_rotation _ c' Hflag), Hx, Hy.
  rewrite (update_pressed_rotation st c Hpressed).
  reflexivity.
Qed.

End Drag.

Lemma drag_is_incremental_witness :
  isMousePressed Sample.dragging = true /\
  isMousePressed (update Sample.identity_default Sample.rotate32 Sample.dragging
                    (Sample.cursor 110 100)) = true /\
  prevMouseX (update Sample.identity_default Sample.rotate32 Sample.dragging
                (Sample.cursor 110 100)) = fst (Sample.cursor 110 100).
Proof.
  split; [reflexivity |].
  pose proof (drag_is_incremental Sample.identity_default Sample.rotate32 Sample.dragging
                (Sample.cursor 110 100) (Sample.cursor 110 120) eq_refl)
    as (Hflag & Hx & _).
  split; [exact Hflag | exact Hx].
Defined.

Lemma drag_starts_at_the_press_witness :
  ~ (GLFW_MOUSE_BUTTON_LEFT = GLFW_MOUSE_BUTTON_LEFT /\ GLFW_RELEASE = GLFW_PRESS) /\
  rotation (plane (update Sample.identity_default Sample.rotate32
                     (mouse_callback Sample.dragging GLFW_MOUSE_BUTTON_LEFT GLFW_RELEASE 0
                                     (Sample.cursor 100 100))
                     (Sample.cursor 110 100)))
  = rotation (plane Sample.dragging).
Proof.
  assert (Hrelease : ~ (GLFW_MOUSE_BUTTON_LEFT = GLFW_MOUSE_BUTTON_LEFT /\
                        GLFW_RELEASE = GLFW_PRESS))
    by (intros [_ H]; discriminate H).
  split; [exact Hrelease |].
  exact (proj1 (proj2 (drag_starts_at_the_press Sample.identity_default Sample.rotate32
                         Sample.dragging 0 (Sample.cursor 100 100) (Sample.cursor 110 100))
                      GLFW_MOUSE_BUTTON_LEFT GLFW_RELEASE Hrelease)).
Defined.

Section Session.

Context {S : Scalar} {P : Platform S}.
Variable mat4_default : mat4 S.
Variable rotate : mat4 S -> float -> vec3 S -> mat4 S.

Lemma set_rotation_shape (m : Mesh) (R : mat4 S) :
  set_rotation m R = set_rotation (set_translation m (translation m)) R.
Proof. destruct m; reflexivity. Qed.

Lemma set_translation_shape (m : Mesh) (T : mat4 S) :
  set_translation m T = set_rotation (set_translation m T) (rotation m).
Proof. destruct m; reflexivity. Qed.

Lemma keeps_scene_refl (st : State) : keeps_scene st st.
Proof.
  unfold keeps_scene. repeat split.
  - exists (translation (plane st)), (rotation (plane st)). destruct (plane st); reflexivity.
  - exists (translation (point st)), (rotation (point st)). destruct (point st); reflexivity.
  - exists (x4 (col0 (hue st))).
    destruct (hue st) as [[h00 h01 h02 h03] c1 c2 c3]. reflexivity.
Qed.

Lemma keeps_scene_trans (st1 st2 st3 : State) :
  keeps_scene st1 st2 -> keeps_scene st2 st3 -> keeps_scene st1 st3.
Proof.
  unfold keeps_scene.
  intros (Hv & Hc & (T1 & R1 & Hp) & (T1' & R1' & Hq) & (v1 & Hh))
         (Hv' & Hc' & (T2 & R2 & Hp') & (T2' & R2' & Hq') & (v2 & Hh')).
  repeat split.
  - congruence.
  - congruence.
  - exists T2, R2. rewrite Hp', Hp. reflexivity.
  - exists T2', R2'. rewrite Hq', Hq. reflexivity.
  - exists v2. rewrite Hh', Hh. reflexivity.
Qed.

Lemma keeps_scene_set_hue00 (st : State) (v : float) : keeps_scene st (set_hue00 st v).
Proof.
  destruct (keeps_scene_refl st) as (Hv & Hc & Hp & Hq & _).
  unfold keeps_scene. repeat split; try assumption.
  exists v. reflexivity.
Qed.

Lemma keeps_scene_update (st : State) (cursor : double * double) :
  keeps_scene st (update mat4_default rotate st cursor).
Proof.
  unfold update.
  apply keeps_scene_trans with (update_rotation mat4_default rotate st cursor).
  - unfold update_rotation.
    destruct (isMousePressed st); [| apply keeps_scene_refl].
    destruct (keeps_scene_refl st) as (Hv & Hc & Hp & Hq & Hh).
    unfold keeps_scene, set_selected, selected.
    destruct (selectedShape st);
      cbn [VP planeCollider plane point hue set_mouse];
      repeat split; try assumption.
    + eexists (translation (plane st)), _. apply set_rotation_shape.
    + eexists (translation (point st)), _. apply set_rotation_shape.
  - unfold update_collision.
    destruct (TestCollision _ _ _); apply keeps_scene_set_hue00.
Qed.

Lemma keeps_scene_dispatch (st : State) (e : Event) : keeps_scene st (dispatch st e).
Proof.
  destruct e as [key scancode action mods | button action mods cursor];
    cbn [dispatch].
  - destruct (key_callback_cases st key scancode action mods) as [-> | [-> | [delta ->]]].
    + apply keeps_scene_refl.
    + destruct (keeps_scene_refl st) as (Hv & Hc & Hp & Hq & Hh).
      unfold keeps_scene. repeat split; assumption.
    + destruct (keeps_scene_refl st) as (Hv & Hc & Hp & Hq & Hh).
      unfold keeps_scene, move, set_selected, selected.
      destruct (selectedShape st);
        cbn [VP planeCollider plane point hue];
        repeat split; try assumption.
      * eexists _, (rotation (plane st)). apply set_translation_shape.
      * eexists _, (rotation (point st)). apply set_translation_shape.
  - destruct (keeps_scene_refl st) as (Hv & Hc & Hp & Hq & Hh).
    unfold keeps_scene. repeat split; assumption.
Qed.

Lemma keeps_scene_poll (events : list Event) :
  forall st : State, keeps_scene st (glfwPollEvents st events).
Proof.
  induction events as [| e events IH]; intros st; cbn [glfwPollEvents fold_left].
  - apply keeps_scene_refl.
  - apply keeps_scene_trans with (dispatch st e).
    + apply keeps_scene_dispatch.
    + apply IH.
Qed.

(** The invariant holds over one turn of the loop. *)
Lemma keeps_scene_loop_body (g : Globals) (st : State) (f : Frame) :
  keeps_scene st (fst (loop_body mat4_default rotate g st f)).
Proof.
  unfold loop_body. cbn [fst].
  apply keeps_scene_trans with (update mat4_default rotate st (frame_cursor f));
    [apply keeps_scene_update | apply keeps_scene_poll].
Qed.

(** The calls of one turn of the loop. *)
Lemma loop_body_calls (g : Globals) (st : State) (f : Frame) :
  snd (loop_body mat4_default rotate g st f)
  = [ glClear 16640;
      glClearColor fzero fzero fzero fone;
      glUseProgram (program g);
      glUniformMatrix4fv (uniHue g) 1 false
        (hue (update mat4_default rotate st (frame_cursor f)));
      glBindVertexArray (VAO (plane st));
      glUniformMatrix4fv (uniMVP g) 1 false
        (mat4_mul (VP st)
           (GetModelMatrix (plane (update mat4_default rotate st (frame_cursor f)))));
      glDrawArrays (primitive (plane st)) 0 (numVertices (plane st));
      glBindVertexArray (VAO (point st));
      glUniformMatrix4fv (uniMVP g) 1 false
        (mat4_mul (VP st)
           (GetModelMatrix (point (update mat4_default rotate st (frame_cursor f)))));
      glDrawArrays (primitive (point st)) 0 (numVertices (point st));
      glfwSwapBuffers ].
Proof.
  destruct (keeps_scene_update st (frame_cursor f))
    as (Hv & Hc & (T & R & Hp) & (T' & R' & Hq) & _).
  unfold loop_body. cbn [snd].
  unfold renderScene, Draw. rewrite Hv, Hp, Hq. reflexivity.
Qed.

(** X9. However many frames the loop runs and whatever events arrive, the
    state it ends in differs from the one it started in at most in the
    translation and rotation of the two meshes, the selection, the mouse
    state and [hue[0][0]]: the view-projection matrix, the collider, the
    scale, vertices and GL names of both meshes and the other fifteen
    elements of hue are those of the start. *)
Theorem main_loop_keeps_scene :
  forall (g : Globals) (frames : list Frame) (st : State),
    keeps_scene st (fst (main_loop mat4_default rotate g st frames)).
Proof.
  intros g frames. induction frames as [| f frames IH]; intros st.
  - apply keeps_scene_refl.
  - cbn [main_loop].
    pose proof (keeps_scene_loop_body g st f) as Hturn.
    destruct (loop_body mat4_default rotate g st f) as [st1 calls].
    specialize (IH st1).
    destruct (main_loop mat4_default rotate g st1 frames) as [st2 calls'].
    cbn [fst] in *.
    apply keeps_scene_trans with st1; assumption.
Qed.

(** X10. In every turn of the loop the hue uploaded and the matrices drawn
    belong together: the calls are clear, clear colour, use program, the hue
    upload, the plane's draw and the point's draw, then the buffer swap; the
    hue's [0][0] is 1.0 or 0.0 as [TestCollision] answers for the very model
    matrix the plane is drawn with and the point's translation as drawn; and
    the events polled in that turn have no part in its calls. *)
Theorem loop_body_draws_what_it_tests :
  forall (g : Globals) (st : State) (f : Frame),
    let drawn := update mat4_default rotate st (frame_cursor f) in
    snd (loop_body mat4_default rotate g st f)
    = [ glClear 16640;
        glClearColor fzero fzero fzero fone;
        glUseProgram (program g);
        glUniformMatrix4fv (uniHue g) 1 false (hue drawn);
        glBindVertexArray (VAO (plane st));
        glUniformMatrix4fv (uniMVP g) 1 false
          (mat4_mul (VP st) (GetModelMatrix (plane drawn)));
        glDrawArrays (primitive (plane st)) 0 (numVertices (plane st));
        glBindVertexArray (VAO (point st));
        glUniformMatrix4fv (uniMVP g) 1 false
          (mat4_mul (VP st) (GetModelMatrix (point drawn)));
        glDrawArrays (primitive (point st)) 0 (numVertices (point st));
        glfwSwapBuffers ] /\
    x4 (col0 (hue drawn))
    = (if TestCollision (planeCollider st) (GetModelMatrix (plane drawn))
            (position (translation (point drawn)))
       then fone else fzero).
Proof.
  intros g st f drawn.
  destruct (keeps_scene_update st (frame_cursor f))
    as (Hv & Hc & (T & R & Hp) & (T' & R' & Hq) & _).
  fold drawn in Hv, Hc, Hp, Hq.
  split.
  - apply loop_body_calls.
  - rewrite <- Hc. subst drawn. unfold update.
    destruct (update_collision_frame (update_rotation mat4_default rotate st (frame_cursor f)))
      as (_ & Hpl & Hpt & _ & Hco & Hh).
    rewrite Hh, Hpl, Hpt, Hco. reflexivity.
Qed.

End Session.

(** ** The GL objects of a mesh *)

Lemma gl_fresh_above (used : list GLuint) (n : GLuint) :
  In n used -> n < gl_fresh used.
Proof.
  unfold gl_fresh. induction used as [| u used IH]; cbn [In fold_right].
  - intros [].
  - intros [<- | Hin]; [lia | specialize (IH Hin); lia].
Qed.

Lemma gl_fresh_not_used (used : list GLuint) : ~ In (gl_fresh used) used.
Proof. intros Hin. apply gl_fresh_above in Hin. lia. Qed.

(** Deleting a name that is not in use changes nothing. *)
Lemma filter_unused (used : list GLuint) (n : GLuint) :
  ~ In n used -> filter (fun name => negb (name =? n)) used = used.
Proof.
  induction used as [| u used IH]; cbn [In filter]; intros Hn; [reflexivity |].
  destruct (Z.eqb_spec u n) as [-> | Hne]; [exfalso; apply Hn; left; reflexivity |].
  cbn [negb]. rewrite IH by tauto. reflexivity.
Qed.

Lemma filter_unused_buffer {A : Type} (buffers : list (GLuint * A)) (n : GLuint) :
  ~ In n (map fst buffers) ->
  filter (fun buffer => negb (fst buffer =? n)) buffers = buffers.
Proof.
  induction buffers as [| u buffers IH]; cbn [In map]; intros Hn; [reflexivity |].
  cbn [filter]. cbn beta.
  destruct (_ =? n) eqn:Heq.
  - exfalso. apply Hn. left. apply Z.eqb_eq. exact Heq.
  - cbn [negb]. rewrite IH by tauto. reflexivity.
Qed.

Section MeshObjects.

Context {S : Scalar}.

(** X11. A mesh destroyed gives back the GL objects there were before it
    was built: whatever vertex arrays and buffers exist, whatever the
    arguments of the constructor, and whatever translation and rotation the
    mesh has been given in between, the destructor leaves exactly the
    vertex arrays and buffers of before the constructor. *)
Theorem Mesh_ctor_dtor_round_trip :
  forall (mat4_default : mat4 S) (gl : GLstate) (numVert : Z) (vert : list Vertex)
         (primType : GLenum) (T R : mat4 S),
    Mesh_dtor (snd (Mesh_ctor mat4_default gl numVert vert primType))
              (set_rotation
                 (set_translation (fst (Mesh_ctor mat4_default gl numVert vert primType)) T)
                 R)
    = gl.
Proof.
  intros mat4_default gl numVert vert primType T R.
  unfold Mesh_ctor, Mesh_dtor.
  cbn [fst snd VAO VBO set_rotation set_translation gl_vertex_arrays gl_buffers filter].
  rewrite !Z.eqb_refl. cbn [negb].
  rewrite (filter_unused _ _ (gl_fresh_not_used (gl_vertex_arrays gl))).
  rewrite (filter_unused_buffer _ _ (gl_fresh_not_used (map fst (gl_buffers gl)))).
  destruct gl; reflexivity.
Qed.

End MeshObjects.

Section Run.

Context {S : Scalar} {SR : ScalarRoot S} {P : Platform S}.
Variable mat4_default : mat4 S.
Variable rotate : mat4 S -> float -> vec3 S -> mat4 S.

(** What the loop keeps of a mesh. *)
Lemma keeps_scene_names (st st' : State) :
  keeps_scene st st' ->
  VAO (plane st') = VAO (plane st) /\ VBO (plane st') = VBO (plane st) /\
  VAO (point st') = VAO (point st) /\ VBO (point st') = VBO (point st) /\
  primitive (plane st') = primitive (plane st) /\
  numVertices (plane st') = numVertices (plane st) /\
  primitive (point st') = primitive (point st) /\
  numVertices (point st') = numVertices (point st).
Proof.
  intros (_ & _ & (T & R & ->) & (T' & R' & ->) & _). repeat split; reflexivity.
Qed.

(** The loop keeps the GL names of both meshes. *)
Lemma main_loop_names (g : Globals) (frames : list Frame) :
  forall st : State,
    VAO (plane (fst (main_loop mat4_default rotate g st frames))) = VAO (plane st) /\
    VBO (plane (fst (main_loop mat4_default rotate g st frames))) = VBO (plane st) /\
    VAO (point (fst (main_loop mat4_default rotate g st frames))) = VAO (point st) /\
    VBO (point (fst (main_loop mat4_default rotate g st frames))) = VBO (point st).
Proof.
  induction frames as [| f frames IH]; intros st; cbn [main_loop].
  - repeat split; reflexivity.
  - pose proof (keeps_scene_names _ _ (keeps_scene_loop_body mat4_default rotate g st f))
      as (Ha & Hb & Ha' & Hb' & _).
    destruct (loop_body mat4_default rotate g st f) as [st1 calls].
    specialize (IH st1).
    destruct (main_loop mat4_default rotate g st1 frames) as [st2 calls'].
    cbn [fst] in *.
    destruct IH as (Ia & Ib & Ia' & Ib').
    repeat split; congruence.
Qed.

(** The two meshes of [main], destroyed in the order of [main], give back
    the GL objects there were before them. *)
Lemma main_cleanup_setup (VP : mat4 S) (gl : GLstate) (st : State) :
  VAO (plane st) = VAO (plane (fst (main_setup mat4_default VP gl))) ->
  VBO (plane st) = VBO (plane (fst (main_setup mat4_default VP gl))) ->
  VAO (point st) = VAO (point (fst (main_setup mat4_default VP gl))) ->
  VBO (point st) = VBO (point (fst (main_setup mat4_default VP gl))) ->
  main_cleanup (snd (main_setup mat4_default VP gl)) st = gl.
Proof.
  intros Ha Hb Ha' Hb'.
  unfold main_setup, Mesh_ctor in *.
  cbn [fst snd plane point VAO VBO set_translation gl_vertex_arrays gl_buffers map] in *.
  unfold main_cleanup, Mesh_dtor.
  cbn [gl_vertex_arrays gl_buffers]. rewrite Ha, Hb, Ha', Hb'.
  set (vas := gl_vertex_arrays gl). set (bufs := gl_buffers gl).
  cbn [filter map fst].
  pose proof (gl_fresh_not_used vas) as Hva.
  pose proof (gl_fresh_not_used (gl_fresh vas :: vas)) as Hva'.
  pose proof (gl_fresh_not_used (map fst bufs)) as Hbu.
  pose proof (gl_fresh_not_used (gl_fresh (map fst bufs) :: map fst bufs)) as Hbu'.
  cbn [In] in Hva', Hbu'.
  rewrite !Z.eqb_refl. cbn [negb].
  destruct (Z.eqb_spec (gl_fresh (gl_fresh vas :: vas)) (gl_fresh vas)) as [He | _];
    [exfalso; apply Hva'; left; symmetry; exact He |].
  destruct (Z.eqb_spec (gl_fresh (gl_fresh (map fst bufs) :: map fst bufs))
                       (gl_fresh (map fst bufs))) as [He | _];
    [exfalso; apply Hbu'; left; symmetry; exact He |].
  cbn [negb filter fst]. rewrite !Z.eqb_refl. cbn [negb].
  rewrite (filter_unused vas _ Hva), (filter_unused_buffer bufs _ Hbu).
  rewrite (filter_unused vas _ (fun H => Hva' (or_intror H))).
  rewrite (filter_unused_buffer bufs _ (fun H => Hbu' (or_intror H))).
  subst vas bufs. destruct gl; reflexivity.
Qed.

(** X12. [main] leaves no GL object of a mesh behind: whatever vertex
    arrays and buffers exist when the meshes are created, and however many
    frames and events the loop goes through, deleting the plane and then
    the point gives back exactly the vertex arrays and buffers there were
    before the two meshes. *)
Theorem main_run_releases_mesh_objects :
  forall (g : Globals) (VP : mat4 S) (gl : GLstate) (frames : list Frame),
    fst (main_run mat4_default rotate g VP gl frames) = gl.
Proof.
  intros g VP gl frames. unfold main_run.
  pose proof (main_cleanup_setup VP gl) as Hclean.
  destruct (main_setup mat4_default VP gl) as [st0 gl2].
  pose proof (main_loop_names g frames st0) as (Ha & Hb & Ha' & Hb').
  destruct (main_loop mat4_default rotate g st0 frames) as [st1 calls].
  cbn [fst snd] in *. apply Hclean; assumption.
Qed.

(** The draw calls of the loop are those of the two meshes it starts
    with. *)
Lemma main_loop_draws (g : Globals) (frames : list Frame) :
  forall st : State,
    Forall (fun call =>
              match call with
              | glDrawArrays mode first count =>
                  (mode = primitive (plane st) /\ first = 0 /\
                   count = numVertices (plane st)) \/
                  (mode = primitive (point st) /\ first = 0 /\
                   count = numVertices (point st))
              | glBindVertexArray array =>
                  array = VAO (plane st) \/ array = VAO (point st)
              | _ => True
              end)
           (snd (main_loop mat4_default rotate g st frames)).
Proof.
  induction frames as [| f frames IH]; intros st; cbn [main_loop].
  - constructor.
  - pose proof (loop_body_calls mat4_default rotate g st f) as Hcalls.
    pose proof (keeps_scene_loop_body mat4_default rotate g st f) as Hkeep.
    destruct (loop_body mat4_default rotate g st f) as [st1 calls].
    cbn [fst snd] in *.
    specialize (IH st1).
    destruct (main_loop mat4_default rotate g st1 frames) as [st2 calls'].
    cbn [snd] in *.
    apply keeps_scene_names in Hkeep.
    destruct Hkeep as (Ha & _ & Ha' & _ & Hp & Hn & Hp' & Hn').
    rewrite Ha, Ha', Hp, Hn, Hp', Hn' in IH.
    apply Forall_app. split; [| exact IH].
    subst calls. repeat constructor; tauto.
Qed.

(** X13. The render path never draws past what [main] uploaded.  After the
    set-up the plane's buffer holds the six vertices of [planeVerts] and the
    point's buffer the one vertex of [pointVert]; and in the whole run every
    [glDrawArrays] is either (GL_TRIANGLES, 0, 6) or (GL_POINTS, 0, 1). *)
Theorem main_run_draws_uploaded_vertices :
  forall (g : Globals) (VP : mat4 S) (gl : GLstate) (frames : list Frame),
    gl_buffer_data (snd (main_setup mat4_default VP gl))
                   (VBO (plane (fst (main_setup mat4_default VP gl))))
      = Some planeVerts /\
    gl_buffer_data (snd (main_setup mat4_default VP gl))
                   (VBO (point (fst (main_setup mat4_default VP gl))))
      = Some (pointVert :: nil) /\
    Forall draws_uploaded (snd (main_run mat4_default rotate g VP gl frames)).
Proof.
  intros g VP gl frames. split; [| split].
  - unfold main_setup, Mesh_ctor, gl_buffer_data.
    cbn [fst snd plane point VBO set_translation gl_buffers find].
    rewrite Z.eqb_refl.
    pose proof (gl_fresh_not_used (gl_fresh (map fst (gl_buffers gl))
                                   :: map fst (gl_buffers gl))) as Hnew.
    cbn [map fst] in *.
    destruct (Z.eqb_spec
                (gl_fresh (gl_fresh (map fst (gl_buffers gl)) :: map fst (gl_buffers gl)))
                (gl_fresh (map fst (gl_buffers gl)))) as [He | _];
      [exfalso; apply Hnew; left; symmetry; exact He |].
    reflexivity.
  - unfold main_setup, Mesh_ctor, gl_buffer_data.
    cbn [fst snd plane point VBO set_translation gl_buffers find].
    rewrite Z.eqb_refl. reflexivity.
  - unfold main_run.
    assert (Hshape :
              primitive (plane (fst (main_setup mat4_default VP gl))) = GL_TRIANGLES /\
              numVertices (plane (fst (main_setup mat4_default VP gl))) = 6 /\
              primitive (point (fst (main_setup mat4_default VP gl))) = GL_POINTS /\
              numVertices (point (fst (main_setup mat4_default VP gl))) = 1).
    { repeat split; reflexivity. }
    destruct (main_setup mat4_default VP gl) as [st0 gl2].
    pose proof (main_loop_draws g frames st0) as Hdraws.
    destruct (main_loop mat4_default rotate g st0 frames) as [st1 calls].
    cbn [fst snd] in *.
    destruct Hshape as (Hp & Hn & Hp' & Hn').
    rewrite Hp, Hn, Hp', Hn' in Hdraws.
    eapply Forall_impl; [| exact Hdraws].
    intros call. destruct call; cbn [draws_uploaded]; tauto.
Qed.

End Run.

(** ** The collision test at the edges of binary32 *)

Lemma mul_nan_r (u : spec_float) : Binary32.mul u S754_nan = S754_nan.
Proof. destruct u; reflexivity. Qed.

Lemma add_nan_r (u : spec_float) : Binary32.add u S754_nan = S754_nan.
Proof. destruct u; reflexivity. Qed.

Lemma add_nan_l (u : spec_float) : Binary32.add S754_nan u = S754_nan.
Proof. reflexivity. Qed.

(** A NaN in the normal makes every component of the world normal a NaN. *)
Lemma worldNormal_nan (pCollider : Plane (S:=F32)) (M : mat4 F32) :
  x3 (normal pCollider) = S754_nan \/ y3 (normal pCollider) = S754_nan \/
  z3 (normal pCollider) = S754_nan ->
  worldNormal pCollider M = mkvec3 (S:=F32) S754_nan S754_nan S754_nan.
Proof.
  destruct pCollider as [[nx ny nz]]. cbn [normal x3 y3 z3].
  cbv [worldNormal vec3_of vec4_of mat4_mul_vec4 vec4_add vec4_scale normal
       x3 y3 z3 x4 y4 z4 w4 fadd fmul fzero F32 Binary32.scalar].
  intros [-> | [-> | ->]];
    rewrite ?mul_nan_r, ?add_nan_l, ?add_nan_r, ?add_nan_l; reflexivity.
Qed.

Lemma TestCollision_nan_normal (pCollider : Plane (S:=F32)) (M : mat4 F32) (p : vec3 F32) :
  x3 (normal pCollider) = S754_nan \/ y3 (normal pCollider) = S754_nan \/
  z3 (normal pCollider) = S754_nan ->
  TestCollision pCollider M p = false.
Proof.
  intros Hn. rewrite TestCollision_unfold, (worldNormal_nan pCollider M Hn).
  cbv [dot x3 y3 z3 fadd fmul fabs fle F32 Binary32.scalar].
  rewrite !mul_nan_r, !add_nan_l. reflexivity.
Qed.

(** [glm::normalize] of a vector of zeros: 1 / sqrt(0) is +infinity and
    0 * infinity is a NaN. *)
Lemma normalize_zero (v : vec3 F32) :
  Binary32.is_zero (x3 v) = true -> Binary32.is_zero (y3 v) = true ->
  Binary32.is_zero (z3 v) = true ->
  normalize (SR:=Binary32.root) v = mkvec3 (S:=F32) S754_nan S754_nan S754_nan.
Proof.
  destruct v as [[[|]| | |] [[|]| | |] [[|]| | |]]; cbn [x3 y3 z3 Binary32.is_zero];
    intros Hx Hy Hz; try discriminate; apply vec3_ext; vm_compute; reflexivity.
Qed.

(** X14. A collider whose normal has a NaN component never collides,
    whatever the model matrix and the point; and normalising a vector of
    zeros, as [main] would for a plane whose first three vertices give a zero
    cross product, produces such a normal. *)
Theorem nan_normal_never_collides :
  (forall (pCollider : Plane (S:=F32)) (M : mat4 F32) (p : vec3 F32),
      x3 (normal pCollider) = S754_nan \/ y3 (normal pCollider) = S754_nan \/
      z3 (normal pCollider) = S754_nan ->
      TestCollision pCollider M p = false) /\
  (forall (v : vec3 F32) (M : mat4 F32) (p : vec3 F32),
      Binary32.is_zero (x3 v) = true -> Binary32.is_zero (y3 v) = true ->
      Binary32.is_zero (z3 v) = true ->
      normalize (SR:=Binary32.root) v = mkvec3 (S:=F32) S754_nan S754_nan S754_nan /\
      TestCollision (mkPlane (normalize (SR:=Binary32.root) v)) M p = false).
Proof.
  split.
  - exact TestCollision_nan_normal.
  - intros v M p Hx Hy Hz. split; [apply normalize_zero; assumption |].
    apply TestCollision_nan_normal. left.
    rewrite (normalize_zero v Hx Hy Hz). reflexivity.
Qed.

Lemma nan_normal_never_collides_witness :
  ((x3 (normal Example.nan_plane) = S754_nan \/ y3 (normal Example.nan_plane) = S754_nan \/
    z3 (normal Example.nan_plane) = S754_nan) /\
   TestCollision Example.nan_plane Sample.identity32 (Sample.on_x_axis Sample.zero32)
   = false) /\
  (Binary32.is_zero (x3 Example.zero_vector) = true /\
   Binary32.is_zero (y3 Example.zero_vector) = true /\
   Binary32.is_zero (z3 Example.zero_vector) = true /\
   TestCollision (mkPlane (normalize (SR:=Binary32.root) Example.zero_vector))
     Sample.identity32 (Sample.on_x_axis Sample.zero32) = false).
Proof.
  split.
  - split; [left; reflexivity |].
    exact (proj1 nan_normal_never_collides Example.nan_plane Sample.identity32
             (Sample.on_x_axis Sample.zero32) (or_introl eq_refl)).
  - do 3 (split; [reflexivity |]).
    exact (proj2 (proj2 nan_normal_never_collides Example.zero_vector Sample.identity32
                    (Sample.on_x_axis Sample.zero32) eq_refl eq_refl eq_refl)).
Defined.

Lemma finite3_components (v : vec3 F32) :
  finite3 v = true ->
  Binary32.is_finite (x3 v) = true /\ Binary32.is_finite (y3 v) = true /\
  Binary32.is_finite (z3 v) = true.
Proof.
  unfold finite3. intros H.
  apply andb_true_iff in H. destruct H as [H Hz].
  apply andb_true_iff in H. destruct H as [Hx Hy]. auto.
Qed.

Lemma mul_finite_zero (u z : spec_float) :
  Binary32.is_finite u = true -> Binary32.is_zero z = true ->
  Binary32.is_zero (Binary32.mul u z) = true.
Proof.
  destruct z as [sz | | |]; try discriminate.
  destruct u; intros Hu _; try discriminate; reflexivity.
Qed.

(** With a normal of zeros the world normal of a finite matrix is a vector
    of zeros. *)
Lemma worldNormal_zero (n : vec3 F32) (M : mat4 F32) :
  Binary32.is_zero (x3 n) = true -> Binary32.is_zero (y3 n) = true ->
  Binary32.is_zero (z3 n) = true ->
  finite3 (vec3_of (col0 M)) = true -> finite3 (vec3_of (col1 M)) = true ->
  finite3 (vec3_of (col2 M)) = true -> finite3 (vec3_of (col3 M)) = true ->
  Binary32.is_zero (x3 (worldNormal (mkPlane n) M)) = true /\
  Binary32.is_zero (y3 (worldNormal (mkPlane n) M)) = true /\
  Binary32.is_zero (z3 (worldNormal (mkPlane n) M)) = true.
Proof.
  intros Hx Hy Hz H0 H1 H2 H3.
  apply finite3_components in H0. destruct H0 as (H0x & H0y & H0z).
  apply finite3_components in H1. destruct H1 as (H1x & H1y & H1z).
  apply finite3_components in H2. destruct H2 as (H2x & H2y & H2z).
  apply finite3_components in H3. destruct H3 as (H3x & H3y & H3z).
  cbv [vec3_of x3 y3 z3] in H0x, H0y, H0z, H1x, H1y, H1z, H2x, H2y, H2z, H3x, H3y, H3z.
  cbv [worldNormal vec3_of vec4_of mat4_mul_vec4 vec4_add vec4_scale normal
       x3 y3 z3 x4 y4 z4 w4 fadd fmul fzero F32 Binary32.scalar].
  repeat split; repeat apply add_zeros; apply mul_finite_zero;
    first [assumption | reflexivity].
Qed.

(** X15. A collider whose normal is the zero vector collides with every
    point: for a model matrix with finite entries in its first three rows
    and a point whose offset from the plane position is finite, the test
    answers true. *)
Theorem zero_normal_always_collides :
  forall (n : vec3 F32) (M : mat4 F32) (p : vec3 F32),
    Binary32.is_zero (x3 n) = true -> Binary32.is_zero (y3 n) = true ->
    Binary32.is_zero (z3 n) = true ->
    finite3 (vec3_of (col0 M)) = true -> finite3 (vec3_of (col1 M)) = true ->
    finite3 (vec3_of (col2 M)) = true -> finite3 (vec3_of (col3 M)) = true ->
    finite3 (vec3_sub p (position M)) = true ->
    TestCollision (mkPlane n) M p = true.
Proof.
  intros n M p Hx Hy Hz H0 H1 H2 H3 Hrel.
  rewrite TestCollision_unfold.
  destruct (worldNormal_zero n M Hx Hy Hz H0 H1 H2 H3) as (Wx & Wy & Wz).
  apply finite3_components in Hrel. destruct Hrel as (Rx & Ry & Rz).
  apply zero_within_tolerance.
  unfold dot. cbn [fadd fmul F32 Binary32.scalar].
  repeat apply add_zeros; apply mul_finite_zero; assumption.
Qed.

Lemma zero_normal_always_collides_witness :
  Binary32.is_zero (x3 Example.zero_vector) = true /\
  Binary32.is_zero (y3 Example.zero_vector) = true /\
  Binary32.is_zero (z3 Example.zero_vector) = true /\
  finite3 (vec3_of (col0 Sample.identity32)) = true /\
  finite3 (vec3_of (col1 Sample.identity32)) = true /\
  finite3 (vec3_of (col2 Sample.identity32)) = true /\
  finite3 (vec3_of (col3 Sample.identity32)) = true /\
  finite3 (vec3_sub (Sample.on_x_axis (Binary32.of_Z 1000)) (position Sample.identity32))
  = true /\
  TestCollision (mkPlane Example.zero_vector) Sample.identity32
    (Sample.on_x_axis (Binary32.of_Z 1000)) = true.
Proof.
  assert (Hrel : finite3 (vec3_sub (Sample.on_x_axis (Binary32.of_Z 1000))
                                   (position Sample.identity32)) = true)
    by (vm_compute; reflexivity).
  do 7 (split; [reflexivity |]).
  split; [exact Hrel |].
  exact (zero_normal_always_collides Example.zero_vector Sample.identity32
           (Sample.on_x_axis (Binary32.of_Z 1000))
           eq_refl eq_refl eq_refl eq_refl eq_refl eq_refl eq_refl Hrel).
Defined.

(** ** Binary32 up to the sign of zero *)

Lemma same_number_refl (u : spec_float) : same_number u u.
Proof. left. reflexivity. Qed.

Lemma same_number_sym (u v : spec_float) : same_number u v -> same_number v u.
Proof. intros [-> | [Hu Hv]]; [left; reflexivity | right; split; assumption]. Qed.

Lemma same_number_trans (u v w : spec_float) :
  same_number u v -> same_number v w -> same_number u w.
Proof.
  intros [-> | [Hu Hv]] [-> | [Hv' Hw]].
  - left. reflexivity.
  - right. split; assumption.
  - right. split; assumption.
  - right. split; assumption.
Qed.

Lemma mul_same_number (u u' v v' : spec_float) :
  same_number u u' -> same_number v v' ->
  same_number (Binary32.mul u v) (Binary32.mul u' v').
Proof.
  intros [-> | [Hu Hu']] [-> | [Hv Hv']].
  - left. reflexivity.
  - destruct v as [sv | | |]; try discriminate.
    destruct v' as [sv' | | |]; try discriminate.
    destruct u' as [su | su | | su mu eu];
      [right; split; reflexivity | left; reflexivity | left; reflexivity
       | right; split; reflexivity].
  - destruct u as [su | | |]; try discriminate.
    destruct u' as [su' | | |]; try discriminate.
    destruct v' as [sv | sv | | sv mv ev];
      [right; split; reflexivity | left; reflexivity | left; reflexivity
       | right; split; reflexivity].
  - destruct u as [su | | |]; try discriminate.
    destruct u' as [su' | | |]; try discriminate.
    destruct v as [sv | | |]; try discriminate.
    destruct v' as [sv' | | |]; try discriminate.
    right. split; reflexivity.
Qed.

Lemma add_same_number (u u' v v' : spec_float) :
  same_number u u' -> same_number v v' ->
  same_number (Binary32.add u v) (Binary32.add u' v').
Proof.
  intros [-> | [Hu Hu']] [-> | [Hv Hv']].
  - left. reflexivity.
  - destruct v as [[|] | | |]; try discriminate;
      destruct v' as [[|] | | |]; try discriminate;
      destruct u' as [[|] | su | | su mu eu];
      first [left; reflexivity | right; split; reflexivity].
  - destruct u as [[|] | | |]; try discriminate;
      destruct u' as [[|] | | |]; try discriminate;
      destruct v' as [[|] | sv | | sv mv ev];
      first [left; reflexivity | right; split; reflexivity].
  - destruct u as [[|] | | |]; try discriminate;
      destruct u' as [[|] | | |]; try discriminate;
      destruct v as [[|] | | |]; try discriminate;
      destruct v' as [[|] | | |]; try discriminate;
      right; split; reflexivity.
Qed.

(** The sign enters a rounded result through its constructor alone. *)
Lemma binary_round_aux_opp (s : bool) (m e : Z) (l : location) :
  binary_round_aux Binary32.prec Binary32.emax (negb s) m e l
  = SFopp (binary_round_aux Binary32.prec Binary32.emax s m e l).
Proof.
  unfold binary_round_aux.
  destruct (shr_fexp Binary32.prec Binary32.emax m e l) as [mrs' e'].
  destruct (shr_fexp Binary32.prec Binary32.emax _ e' loc_Exact) as [mrs'' e''].
  destruct (shr_m mrs''); [reflexivity | | reflexivity].
  destruct (e'' <=? Binary32.emax - Binary32.prec); reflexivity.
Qed.

Lemma binary_round_opp (s : bool) (m : positive) (e : Z) :
  binary_round Binary32.prec Binary32.emax (negb s) m e
  = SFopp (binary_round Binary32.prec Binary32.emax s m e).
Proof.
  unfold binary_round.
  destruct (shl_align m e _) as [mz ez]. apply binary_round_aux_opp.
Qed.

Lemma xorb_negb_r (a b : bool) : xorb a (negb b) = negb (xorb a b).
Proof. destruct a, b; reflexivity. Qed.

(** Negating a factor negates the product, exactly. *)
Lemma mul_opp_r (u v : spec_float) :
  Binary32.mul u (SFopp v) = SFopp (Binary32.mul u v).
Proof.
  destruct u as [su | su | | su mu eu]; destruct v as [sv | sv | | sv mv ev];
    cbn [Binary32.mul SFmul SFopp]; rewrite ?xorb_negb_r; try reflexivity.
  apply binary_round_aux_opp.
Qed.

Lemma cond_Zopp_negb (s : bool) (n : Z) : cond_Zopp (negb s) n = - cond_Zopp s n.
Proof. destruct s; cbn [cond_Zopp negb]; lia. Qed.

Lemma binary_normalize_opp (n e : Z) :
  same_number (binary_normalize Binary32.prec Binary32.emax (- n) e false)
              (SFopp (binary_normalize Binary32.prec Binary32.emax n e false)).
Proof.
  destruct n as [| m | m]; cbn [Z.opp binary_normalize].
  - right. split; reflexivity.
  - left. apply (binary_round_opp false).
  - left. apply (binary_round_opp true).
Qed.

(** Negating both terms negates the sum, up to the sign of a zero. *)
Lemma add_opp (u v : spec_float) :
  same_number (Binary32.add (SFopp u) (SFopp v)) (SFopp (Binary32.add u v)).
Proof.
  destruct u as [[|] | [|] | | su mu eu]; destruct v as [[|] | [|] | | sv mv ev];
    try (left; reflexivity); try (right; split; reflexivity).
  cbn [SFopp Binary32.add SFadd].
  rewrite !cond_Zopp_negb, <- Z.opp_add_distr.
  apply binary_normalize_opp.
Qed.

(** A product with +0 is a zero or a NaN: its negation is the same number. *)
Lemma mul_zero_r_opp (u : spec_float) :
  same_number (SFopp (Binary32.mul u (S754_zero false))) (Binary32.mul u (S754_zero false)).
Proof.
  destruct u as [su | su | | su mu eu];
    first [left; reflexivity | right; split; reflexivity].
Qed.

Lemma abs_of_opposite (u v : spec_float) :
  same_number (SFopp u) v -> SFabs v = SFabs u.
Proof.
  intros [<- | [Hu Hv]].
  - destruct u; reflexivity.
  - destruct u as [su | | |]; try discriminate.
    destruct v as [sv | | |]; try discriminate. reflexivity.
Qed.

(** [v] is the opposite of [u], up to the sign of a zero. *)
Lemma opposite_mul (r u v : spec_float) :
  same_number (SFopp u) v ->
  same_number (SFopp (Binary32.mul r u)) (Binary32.mul r v).
Proof.
  intros H. rewrite <- mul_opp_r.
  apply mul_same_number; [apply same_number_refl | exact H].
Qed.

Lemma opposite_add (a a' b b' : spec_float) :
  same_number (SFopp a) a' -> same_number (SFopp b) b' ->
  same_number (SFopp (Binary32.add a b)) (Binary32.add a' b').
Proof.
  intros Ha Hb.
  apply same_number_trans with (Binary32.add (SFopp a) (SFopp b)).
  - apply same_number_sym, add_opp.
  - apply add_same_number; assumption.
Qed.

(** X16. The answer of [TestCollision] does not depend on the side the
    normal points to: negating the three components of the collider's normal
    gives the same result for every model matrix and every point, NaN and
    infinities included. *)
Theorem TestCollision_normal_orientation :
  forall (n : vec3 F32) (M : mat4 F32) (p : vec3 F32),
    TestCollision (mkPlane (mkvec3 (S:=F32) (fneg (x3 n)) (fneg (y3 n)) (fneg (z3 n)))) M p
    = TestCollision (mkPlane n) M p.
Proof.
  intros [nx ny nz] M p. rewrite !TestCollision_unfold.
  set (rel := vec3_sub p (position M)).
  cbv [dot worldNormal vec3_of vec4_of mat4_mul_vec4 vec4_add vec4_scale normal
       x3 y3 z3 x4 y4 z4 w4 fadd fmul fneg fabs fle fzero F32 Binary32.scalar].
  f_equal. apply abs_of_opposite.
  repeat apply opposite_add; apply opposite_mul;
    repeat apply opposite_add;
    first [ left; symmetry; apply mul_opp_r | apply mul_zero_r_opp ].
Qed.

(** ** Translation keys in exact arithmetic *)

Section ExactKeys.

Context {S : Scalar} {P : Platform S}.
Hypothesis Hring : ring_theory fzero fone fadd fmul fsub fneg (@eq float).

Add Ring scalar_ring_keys : Hring.

(** Left multiplication by a translation adds delta times w to each
    column. *)
Lemma translate_mul (d : vec3 S) (M : mat4 S) :
  mat4_mul (translate mat4_identity d) M
  = mkmat4
      (mkvec4 (fadd (x4 (col0 M)) (fmul (x3 d) (w4 (col0 M))))
              (fadd (y4 (col0 M)) (fmul (y3 d) (w4 (col0 M))))
              (fadd (z4 (col0 M)) (fmul (z3 d) (w4 (col0 M)))) (w4 (col0 M)))
      (mkvec4 (fadd (x4 (col1 M)) (fmul (x3 d) (w4 (col1 M))))
              (fadd (y4 (col1 M)) (fmul (y3 d) (w4 (col1 M))))
              (fadd (z4 (col1 M)) (fmul (z3 d) (w4 (col1 M)))) (w4 (col1 M)))
      (mkvec4 (fadd (x4 (col2 M)) (fmul (x3 d) (w4 (col2 M))))
              (fadd (y4 (col2 M)) (fmul (y3 d) (w4 (col2 M))))
              (fadd (z4 (col2 M)) (fmul (z3 d) (w4 (col2 M)))) (w4 (col2 M)))
      (mkvec4 (fadd (x4 (col3 M)) (fmul (x3 d) (w4 (col3 M))))
              (fadd (y4 (col3 M)) (fmul (y3 d) (w4 (col3 M))))
              (fadd (z4 (col3 M)) (fmul (z3 d) (w4 (col3 M)))) (w4 (col3 M))).
Proof.
  destruct M as [[a0 a1 a2 a3] [b0 b1 b2 b3] [c0 c1 c2 c3] [d0 d1 d2 d3]].
  destruct d as [dx dy dz].
  apply mat4_ext; apply vec4_ext;
    cbv [mat4_mul mat4_mul_col translate mat4_identity mat4_diag vec4_add vec4_scale
         col0 col1 col2 col3 x4 y4 z4 w4 x3 y3 z3];
    ring.
Qed.

Lemma translate_twice (d d' : vec3 S) (M : mat4 S) :
  mat4_mul (translate mat4_identity d') (mat4_mul (translate mat4_identity d) M)
  = mat4_mul (translate mat4_identity (vec3_add d d')) M.
Proof.
  rewrite !translate_mul.
  destruct M as [[a0 a1 a2 a3] [b0 b1 b2 b3] [c0 c1 c2 c3] [d0 d1 d2 d3]].
  destruct d as [dx dy dz]. destruct d' as [ex ey ez].
  cbv [vec3_add col0 col1 col2 col3 x4 y4 z4 w4 x3 y3 z3].
  apply mat4_ext; apply vec4_ext; cbv [col0 col1 col2 col3 x4 y4 z4 w4]; ring.
Qed.

Lemma translate_none (d : vec3 S) (M : mat4 S) :
  x3 d = fzero -> y3 d = fzero -> z3 d = fzero ->
  mat4_mul (translate mat4_identity d) M = M.
Proof.
  intros Hx Hy Hz. rewrite translate_mul, Hx, Hy, Hz.
  destruct M as [[a0 a1 a2 a3] [b0 b1 b2 b3] [c0 c1 c2 c3] [d0 d1 d2 d3]].
  apply mat4_ext; apply vec4_ext; cbv [col0 col1 col2 col3 x4 y4 z4 w4]; ring.
Qed.

Lemma move_move (st : State) (d d' : vec3 S) :
  move (move st d) d' = move st (vec3_add d d').
Proof.
  unfold move. rewrite selected_set_selected. cbn [translation set_translation].
  rewrite translate_twice.
  destruct st as [v h pl pt [|] c pr mx my]; reflexivity.
Qed.

Lemma move_none (st : State) (d : vec3 S) :
  x3 d = fzero -> y3 d = fzero -> z3 d = fzero -> move st d = st.
Proof.
  intros Hx Hy Hz. unfold move. rewrite (translate_none d _ Hx Hy Hz).
  rewrite set_translation_same. apply set_selected_same.
Qed.

Lemma move_comm (st : State) (d d' : vec3 S) :
  move (move st d) d' = move (move st d') d.
Proof.
  rewrite !move_move. f_equal.
  destruct d as [dx dy dz]. destruct d' as [ex ey ez].
  apply vec3_ext; cbv [vec3_add x3 y3 z3]; ring.
Qed.

(** Each translation key stands for one step, whatever the scancode, the
    action (press or repeat) and the modifiers. *)
Lemma key_callback_is_move (key : Z) :
  In key [GLFW_KEY_W; GLFW_KEY_S; GLFW_KEY_A; GLFW_KEY_D;
          GLFW_KEY_LEFT_CONTROL; GLFW_KEY_LEFT_SHIFT] ->
  exists d : vec3 S,
    forall (st : State) (scancode action mods : Z),
      action = GLFW_PRESS \/ action = GLFW_REPEAT ->
      key_callback st key scancode action mods = move st d.
Proof.
  intros Hkey. cbn [In] in Hkey.
  destruct Hkey as [<- | [<- | [<- | [<- | [<- | [<- | []]]]]]];
    eexists; intros st scancode action mods Ha;
    destruct (key_callback_move st scancode action mods Ha)
      as (Hw & Hs & Hka & Hd & Hc & Hl);
    [exact Hw | exact Hs | exact Hka | exact Hd | exact Hc | exact Hl].
Qed.

(** X17. In exact arithmetic the translation keys undo each other and
    commute: W then S, A then D, Left Control then Left Shift (in either
    order) give back the state before, and any two of the six keys pressed
    in either order give the same state. *)
Theorem translation_keys_cancel_and_commute :
  forall (st : State) (scancode scancode' action action' mods mods' : Z),
    action = GLFW_PRESS \/ action = GLFW_REPEAT ->
    action' = GLFW_PRESS \/ action' = GLFW_REPEAT ->
    let press key := fun s : State => key_callback s key scancode action mods in
    let press' key := fun s : State => key_callback s key scancode' action' mods' in
    press' GLFW_KEY_S (press GLFW_KEY_W st) = st /\
    press' GLFW_KEY_W (press GLFW_KEY_S st) = st /\
    press' GLFW_KEY_D (press GLFW_KEY_A st) = st /\
    press' GLFW_KEY_A (press GLFW_KEY_D st) = st /\
    press' GLFW_KEY_LEFT_SHIFT (press GLFW_KEY_LEFT_CONTROL st) = st /\
    press' GLFW_KEY_LEFT_CONTROL (press GLFW_KEY_LEFT_SHIFT st) = st /\
    (forall key key' : Z,
        In key [GLFW_KEY_W; GLFW_KEY_S; GLFW_KEY_A; GLFW_KEY_D;
                GLFW_KEY_LEFT_CONTROL; GLFW_KEY_LEFT_SHIFT] ->
        In key' [GLFW_KEY_W; GLFW_KEY_S; GLFW_KEY_A; GLFW_KEY_D;
                 GLFW_KEY_LEFT_CONTROL; GLFW_KEY_LEFT_SHIFT] ->
        press' key' (press key st) = press' key (press key' st)).
Proof.
  intros st scancode scancode' action action' mods mods' Ha Ha' press press'.
  subst press press'. cbv beta.
  assert (Hback : forall d d' : vec3 S,
             fadd (x3 d) (x3 d') = fzero -> fadd (y3 d) (y3 d') = fzero ->
             fadd (z3 d) (z3 d') = fzero -> move (move st d) d' = st).
  { intros d d' Hx Hy Hz. rewrite move_move. apply move_none; assumption. }
  destruct (key_callback_move st scancode action mods Ha)
    as (Hw & Hs & Hka & Hd & Hc & Hl).
  rewrite Hw, Hs, Hka, Hd, Hc, Hl.
  repeat split.
  1-6: match goal with
       | |- key_callback ?s _ _ _ _ = _ =>
           destruct (key_callback_move s scancode' action' mods' Ha')
             as (Hw' & Hs' & Hka' & Hd' & Hc' & Hl')
       end;
       rewrite ?Hw', ?Hs', ?Hka', ?Hd', ?Hc', ?Hl';
       apply Hback; cbv [x3 y3 z3]; ring.
  intros key key' Hkey Hkey'.
  destruct (key_callback_is_move key Hkey) as [d Hmove].
  destruct (key_callback_is_move key' Hkey') as [d' Hmove'].
  rewrite (Hmove st scancode action mods Ha), (Hmove' st scancode action mods Ha).
  rewrite (Hmove' _ scancode' action' mods' Ha'), (Hmove _ scancode' action' mods' Ha').
  apply move_comm.
Qed.

End ExactKeys.

Lemma translation_keys_cancel_and_commute_witness :
  ring_theory (fzero (Scalar:=Exact.scalar)) fone fadd fmul fsub fneg (@eq Qc) /\
  (GLFW_PRESS = GLFW_PRESS \/ GLFW_PRESS = GLFW_REPEAT) /\
  (GLFW_REPEAT = GLFW_PRESS \/ GLFW_REPEAT = GLFW_REPEAT) /\
  key_callback (key_callback Example.exact_scene GLFW_KEY_W 17 GLFW_PRESS 0)
               GLFW_KEY_S 31 GLFW_REPEAT 0 = Example.exact_scene.
Proof.
  split; [exact Qcrt |].
  split; [left; reflexivity |]. split; [right; reflexivity |].
  exact (proj1 (translation_keys_cancel_and_commute (S:=Exact.scalar) Qcrt
                  Example.exact_scene 17 31 GLFW_PRESS GLFW_REPEAT 0 0
                  (or_introl eq_refl) (or_intror eq_refl))).
Defined.

(** ** Translation keys in binary32 *)

(** 1.0f times a finite float returns it. *)
Lemma one_mul_finite (s : bool) (m : positive) (e : Z) :
  bounded Binary32.prec Binary32.emax m e = true ->
  Binary32.mul Binary32.one (S754_finite s m e) = S754_finite s m e.
Proof.
  intros Hb. unfold bounded, canonical_mantissa in Hb.
  apply andb_true_iff in Hb. destruct Hb as [Hc He].
  apply Z.eqb_eq in Hc.
  unfold Binary32.mul, Binary32.one, SFmul.
  cbn [xorb].
  change (8388608 * m)%positive
    with (m~0~0~0~0~0~0~0~0~0~0~0~0~0~0~0~0~0~0~0~0~0~0~0)%positive.
  unfold binary_round_aux, shr_fexp.
  unfold Zdigits2 at 1. rewrite digits2_pos_shift23.
  replace (Z.pos (digits2_pos m) + 23 + (-23 + e))
    with (Z.pos (digits2_pos m) + e) by lia.
  rewrite Hc.
  replace (e - (-23 + e)) with 23 by lia.
  cbn [shr shr_record_of_loc iter_pos shr_1 shr_m shr_r shr_s
       loc_of_shr_record round_nearest_even orb].
  replace (-23 + e + 23) with e by lia.
  unfold Zdigits2. rewrite Hc, Z.sub_diag.
  cbn [shr shr_record_of_loc shr_m].
  rewrite He. reflexivity.
Qed.

Lemma finite_valid_cases (u : spec_float) :
  finite_valid u = true ->
  (exists s, u = S754_zero s) \/
  (exists s m e, u = S754_finite s m e /\
                 bounded Binary32.prec Binary32.emax m e = true).
Proof.
  unfold finite_valid. intros H. apply andb_true_iff in H. destruct H as [Hf Hv].
  destruct u as [s | s | | s m e]; try discriminate.
  - left. exists s. reflexivity.
  - right. exists s, m, e. split; [reflexivity | exact Hv].
Qed.

(** The sums that make one coordinate of the moved position: the products
    with the zeros of the translation matrix vanish. *)
Lemma moved_x (a b c t : spec_float) :
  finite_valid a = true -> finite_valid b = true -> finite_valid c = true ->
  finite_valid t = true -> t <> S754_zero true ->
  Binary32.add
    (Binary32.add
       (Binary32.add (Binary32.mul Binary32.one a) (Binary32.mul (S754_zero false) b))
       (Binary32.mul (S754_zero false) c))
    (Binary32.mul t Binary32.one)
  = Binary32.add a t.
Proof.
  intros Ha Hb Hc Ht Hnz.
  destruct (finite_valid_cases t Ht) as [[st ->] | (st & mt & et & -> & Hbt)];
    [destruct st; [contradiction Hnz; reflexivity |] | rewrite (mul_one_finite _ _ _ Hbt)];
    destruct (finite_valid_cases a Ha) as [[[|] ->] | (sa & ma & ea & -> & Hba)];
    rewrite ?(one_mul_finite _ _ _ Hba);
    destruct (finite_valid_cases b Hb) as [[[|] ->] | ([|] & mb & eb & -> & _)];
    destruct (finite_valid_cases c Hc) as [[[|] ->] | ([|] & mc & ec & -> & _)];
    reflexivity.
Qed.

Lemma moved_y (a b c t : spec_float) :
  finite_valid a = true -> finite_valid b = true -> finite_valid c = true ->
  finite_valid t = true -> t <> S754_zero true ->
  Binary32.add
    (Binary32.add
       (Binary32.add (Binary32.mul (S754_zero false) a) (Binary32.mul Binary32.one b))
       (Binary32.mul (S754_zero false) c))
    (Binary32.mul t Binary32.one)
  = Binary32.add b t.
Proof.
  intros Ha Hb Hc Ht Hnz.
  destruct (finite_valid_cases t Ht) as [[st ->] | (st & mt & et & -> & Hbt)];
    [destruct st; [contradiction Hnz; reflexivity |] | rewrite (mul_one_finite _ _ _ Hbt)];
    destruct (finite_valid_cases b Hb) as [[[|] ->] | (sb & mb & eb & -> & Hbb)];
    rewrite ?(one_mul_finite _ _ _ Hbb);
    destruct (finite_valid_cases a Ha) as [[[|] ->] | ([|] & ma & ea & -> & _)];
    destruct (finite_valid_cases c Hc) as [[[|] ->] | ([|] & mc & ec & -> & _)];
    reflexivity.
Qed.

Lemma moved_z (a b c t : spec_float) :
  finite_valid a = true -> finite_valid b = true -> finite_valid c = true ->
  finite_valid t = true -> t <> S754_zero true ->
  Binary32.add
    (Binary32.add
       (Binary32.add (Binary32.mul (S754_zero false) a) (Binary32.mul (S754_zero false) b))
       (Binary32.mul Binary32.one c))
    (Binary32.mul t Binary32.one)
  = Binary32.add c t.
Proof.
  intros Ha Hb Hc Ht Hnz.
  destruct (finite_valid_cases t Ht) as [[st ->] | (st & mt & et & -> & Hbt)];
    [destruct st; [contradiction Hnz; reflexivity |] | rewrite (mul_one_finite _ _ _ Hbt)];
    destruct (finite_valid_cases c Hc) as [[[|] ->] | (sc & mc & ec & -> & Hbc)];
    rewrite ?(one_mul_finite _ _ _ Hbc);
    destruct (finite_valid_cases a Ha) as [[[|] ->] | ([|] & ma & ea & -> & _)];
    destruct (finite_valid_cases b Hb) as [[[|] ->] | ([|] & mb & eb & -> & _)];
    reflexivity.
Qed.

Lemma moved_w (a b c : spec_float) :
  finite_valid a = true -> finite_valid b = true -> finite_valid c = true ->
  Binary32.add
    (Binary32.add
       (Binary32.add (Binary32.mul (S754_zero false) a) (Binary32.mul (S754_zero false) b))
       (Binary32.mul (S754_zero false) c))
    (Binary32.mul Binary32.one Binary32.one)
  = Binary32.one.
Proof.
  intros Ha Hb Hc.
  destruct (finite_valid_cases a Ha) as [[[|] ->] | ([|] & ma & ea & -> & _)];
    destruct (finite_valid_cases b Hb) as [[[|] ->] | ([|] & mb & eb & -> & _)];
    destruct (finite_valid_cases c Hc) as [[[|] ->] | ([|] & mc & ec & -> & _)];
    reflexivity.
Qed.

Lemma mul_finite_by_zero (t : spec_float) :
  finite_valid t = true ->
  exists s, Binary32.mul t (S754_zero false) = S754_zero s.
Proof.
  intros Ht.
  destruct (finite_valid_cases t Ht) as [[s ->] | (s & m & e & -> & _)];
    eexists; reflexivity.
Qed.

(** The Scalar operations at binary32, spelled out. *)
Ltac unfold_binary32 :=
  cbv [mat4_mul mat4_mul_col translate translation_at mat4_identity mat4_diag
       vec4_add vec4_scale col0 col1 col2 col3 x4 y4 z4 w4 x3 y3 z3
       fadd fmul fzero fone Binary32.scalar].

(** The product of two pure translations whose entries are finite is the
    pure translation to the rounded sums. *)
Lemma translation_at_mul (dx dy dz a b c : spec_float) :
  finite_valid dx = true -> finite_valid dy = true -> finite_valid dz = true ->
  dx <> S754_zero true -> dy <> S754_zero true -> dz <> S754_zero true ->
  finite_valid a = true -> finite_valid b = true -> finite_valid c = true ->
  mat4_mul (translation_at dx dy dz) (translation_at a b c)
  = translation_at (Binary32.add a dx) (Binary32.add b dy) (Binary32.add c dz).
Proof.
  intros Hdx Hdy Hdz Nx Ny Nz Ha Hb Hc.
  apply mat4_ext; apply vec4_ext; unfold_binary32;
    try (apply moved_x; assumption);
    try (apply moved_y; assumption);
    try (apply moved_z; assumption);
    try (apply moved_w; assumption);
    try reflexivity;
    try (destruct (mul_finite_by_zero dx Hdx) as [[|] ->]; reflexivity);
    try (destruct (mul_finite_by_zero dy Hdy) as [[|] ->]; reflexivity);
    try (destruct (mul_finite_by_zero dz Hdz) as [[|] ->]; reflexivity).
Qed.

Section Binary32Keys.

Context {P : Platform F32}.

(** The six steps, as translation matrices. *)
Lemma translate_steps :
  translate mat4_identity (mkvec3 (S:=F32) fzero movementSpeed fzero)
    = translation_at (S754_zero false) (Binary32.decimal 2 2) (S754_zero false) /\
  translate mat4_identity (mkvec3 (S:=F32) fzero (fneg movementSpeed) fzero)
    = translation_at (S754_zero false) (SFopp (Binary32.decimal 2 2)) (S754_zero false) /\
  translate mat4_identity (mkvec3 (S:=F32) (fneg movementSpeed) fzero fzero)
    = translation_at (SFopp (Binary32.decimal 2 2)) (S754_zero false) (S754_zero false) /\
  translate mat4_identity (mkvec3 (S:=F32) movementSpeed fzero fzero)
    = translation_at (Binary32.decimal 2 2) (S754_zero false) (S754_zero false) /\
  translate mat4_identity (mkvec3 (S:=F32) fzero fzero movementSpeed)
    = translation_at (S754_zero false) (S754_zero false) (Binary32.decimal 2 2) /\
  translate mat4_identity (mkvec3 (S:=F32) fzero fzero (fneg movementSpeed))
    = translation_at (S754_zero false) (S754_zero false) (SFopp (Binary32.decimal 2 2)).
Proof.
  repeat split; apply mat4_ext; apply vec4_ext; vm_compute; reflexivity.
Qed.

(** X18. In binary32, while the selected mesh's translation is the pure
    translation to a finite position (a, b, c), a press or repeat of a
    translation key leaves it a pure translation: the position becomes the
    rounded sum of (a, b, c) and the key's step, and the rest of the matrix
    stays the identity exactly. *)
Theorem key_callback_moves_position :
  forall (st : State (S:=F32)) (a b c : spec_float) (scancode action mods : Z),
    action = GLFW_PRESS \/ action = GLFW_REPEAT ->
    finite_valid a = true -> finite_valid b = true -> finite_valid c = true ->
    translation (selected st) = translation_at a b c ->
    let step := Binary32.decimal 2 2 in
    let zero := S754_zero false in
    let after key := translation (selected (key_callback st key scancode action mods)) in
    after GLFW_KEY_W
      = translation_at (Binary32.add a zero) (Binary32.add b step) (Binary32.add c zero) /\
    after GLFW_KEY_S
      = translation_at (Binary32.add a zero) (Binary32.add b (SFopp step))
                       (Binary32.add c zero) /\
    after GLFW_KEY_A
      = translation_at (Binary32.add a (SFopp step)) (Binary32.add b zero)
                       (Binary32.add c zero) /\
    after GLFW_KEY_D
      = translation_at (Binary32.add a step) (Binary32.add b zero) (Binary32.add c zero) /\
    after GLFW_KEY_LEFT_CONTROL
      = translation_at (Binary32.add a zero) (Binary32.add b zero) (Binary32.add c step) /\
    after GLFW_KEY_LEFT_SHIFT
      = translation_at (Binary32.add a zero) (Binary32.add b zero)
                       (Binary32.add c (SFopp step)).
Proof.
  intros st a b c scancode action mods Hact Ha Hb Hc Ht step zero after.
  destruct (key_callback_move st scancode action mods Hact)
    as (Hw & Hs & Hka & Hd & Hctl & Hsh).
  destruct translate_steps as (Tw & Ts & Tka & Td & Tctl & Tsh).
  unfold after.
  rewrite Hw, Hs, Hka, Hd, Hctl, Hsh, !translation_selected_move, Ht.
  rewrite Tw, Ts, Tka, Td, Tctl, Tsh.
  repeat split; apply translation_at_mul;
    solve [assumption | reflexivity | discriminate].
Qed.

End Binary32Keys.

Lemma key_callback_moves_position_witness :
  (GLFW_PRESS = GLFW_PRESS \/ GLFW_PRESS = GLFW_REPEAT) /\
  finite_valid (Binary32.decimal 15 2) = true /\
  finite_valid Sample.zero32 = true /\
  translation (selected Sample.scene)
  = translation_at (Binary32.decimal 15 2) Sample.zero32 Sample.zero32 /\
  translation (selected (key_callback Sample.scene GLFW_KEY_D 32 GLFW_PRESS 0))
  = translation_at (Binary32.add (Binary32.decimal 15 2) (Binary32.decimal 2 2))
                   (Binary32.add Sample.zero32 Sample.zero32)
                   (Binary32.add Sample.zero32 Sample.zero32).
Proof.
  assert (Hstart : translation (selected Sample.scene)
                   = translation_at (Binary32.decimal 15 2) Sample.zero32 Sample.zero32).
  { apply mat4_ext; apply vec4_ext; vm_compute; reflexivity. }
  split; [left; reflexivity |].
  split; [vm_compute; reflexivity |].
  split; [reflexivity |].
  split; [exact Hstart |].
  exact (proj1 (proj2 (proj2 (proj2
           (key_callback_moves_position Sample.scene (Binary32.decimal 15 2)
              Sample.zero32 Sample.zero32 32 GLFW_PRESS 0 (or_introl eq_refl)
              eq_refl eq_refl eq_refl Hstart))))).
Defined.

(** ** The shader sources on their way to the compiler *)

Section ShaderSources.

Local Open Scope string_scope.
Local Open Scope nat_scope.

Lemma length_append (s t : string) :
  String.length (s ++ t) = String.length s + String.length t.
Proof. induction s as [| c s IH]; cbn [append String.length]; [reflexivity | rewrite IH; reflexivity]. Qed.

Lemma length_nul_string (n : nat) : String.length (Shader.nul_string n) = n.
Proof. induction n as [| n IH]; cbn [Shader.nul_string String.length]; [reflexivity | rewrite IH; reflexivity]. Qed.

Lemma length_substring_0 (n : nat) (s : string) :
  String.length (substring 0 n s) = Nat.min n (String.length s).
Proof.
  revert s. induction n as [| n IH]; intros s.
  - destruct s; reflexivity.
  - destruct s as [| c s]; [reflexivity |].
    cbn [substring String.length Nat.min]. rewrite IH. reflexivity.
Qed.

Lemma substring_short (n : nat) (s : string) :
  String.length s <= n -> substring 0 n s = s.
Proof.
  revert s. induction n as [| n IH]; intros s Hlen.
  - destruct s; [reflexivity | cbn [String.length] in Hlen; lia].
  - destruct s as [| c s]; [reflexivity |].
    cbn [substring]. rewrite IH; [reflexivity | cbn [String.length] in Hlen; lia].
Qed.

Lemma length_read_into (n : nat) (delivered : string) :
  String.length (Shader.read_into n delivered) = n.
Proof.
  unfold Shader.read_into.
  rewrite length_append, length_nul_string, length_substring_0. lia.
Qed.

Lemma read_into_short (n : nat) (delivered : string) :
  String.length delivered <= n ->
  Shader.read_into n delivered
  = delivered ++ Shader.nul_string (n - String.length delivered).
Proof.
  intros Hlen. unfold Shader.read_into. rewrite (substring_short n delivered Hlen).
  reflexivity.
Qed.

(** Written as a C string, the NUL padding does not show. *)
Lemma c_str_padding (s : string) (k : nat) :
  Shader.c_str (s ++ Shader.nul_string k) = Shader.c_str s.
Proof.
  induction s as [| c s IH]; cbn [append Shader.c_str].
  - destruct k; reflexivity.
  - rewrite IH. reflexivity.
Qed.

Lemma length_c_str (s : string) : String.length (Shader.c_str s) <= String.length s.
Proof.
  induction s as [| c s IH]; cbn [Shader.c_str String.length]; [lia |].
  destruct (Ascii.eqb c zero); cbn [String.length]; lia.
Qed.

Lemma submitted_short (sourceCode : string) :
  (Z.of_nat (String.length sourceCode) < 2 ^ 31)%Z ->
  ShaderBuilder.submitted sourceCode = sourceCode.
Proof.
  intros Hlen. unfold ShaderBuilder.submitted, ShaderBuilder.int_of_size.
  assert (Hint : ((Z.of_nat (String.length sourceCode) + 2 ^ 31) mod 2 ^ 32 - 2 ^ 31
                  = Z.of_nat (String.length sourceCode))%Z).
  { rewrite Z.mod_small; lia. }
  rewrite Hint.
  destruct (Z.ltb_spec (Z.of_nat (String.length sourceCode)) 0) as [Hneg | _]; [lia |].
  rewrite Nat2Z.id. apply substring_all.
Qed.

(** X19. Whatever the stream delivers, the string [readShader] returns for
    a file that opens has exactly (file size mod 2^32) characters; written
    as a C string it shows no more than the delivered characters before
    their first NUL. *)
Theorem readShader_length :
  forall (text_mode : string -> string) (fs : Shader.FileSystem)
         (fileName bytes : string),
    fs fileName = Some bytes ->
    exists s : string,
      Shader.readShader text_mode fs fileName = Shader.mkResult "" (Shader.Returns s) /\
      Z.of_nat (String.length s) = (Z.of_nat (String.length bytes) mod 2 ^ 32)%Z /\
      String.length (Shader.c_str s) <= String.length (text_mode bytes).
Proof.
  intros text_mode fs fileName bytes Hfs.
  eexists. split; [| split].
  - unfold Shader.readShader. rewrite Hfs. reflexivity.
  - rewrite length_read_into. rewrite Z2Nat.id; [reflexivity |].
    apply Z.mod_pos_bound. reflexivity.
  - set (n := Z.to_nat (Z.of_nat (String.length bytes) mod 2 ^ 32)).
    unfold Shader.read_into. rewrite c_str_padding.
    pose proof (length_c_str (substring 0 n (text_mode bytes))) as Hc.
    rewrite length_substring_0 in Hc. lia.
Qed.

(** X20. On a runtime whose text mode shortens the file (the Microsoft one,
    which delivers CR-LF as LF) a file below 2^32 bytes comes back as the
    delivered text followed by one NUL for every character the translation
    removed; below 2^31 bytes that string, NULs included, is what
    [createShader] hands to [glShaderSource]. *)
Theorem readShader_pads_translated_text :
  forall (text_mode : string -> string) (fs : Shader.FileSystem)
         (fileName bytes : string),
    fs fileName = Some bytes ->
    String.length (text_mode bytes) <= String.length bytes ->
    (Z.of_nat (String.length bytes) < 2 ^ 32)%Z ->
    let padded :=
      text_mode bytes
      ++ Shader.nul_string (String.length bytes - String.length (text_mode bytes)) in
    Shader.readShader text_mode fs fileName = Shader.mkResult "" (Shader.Returns padded) /\
    Shader.c_str padded = Shader.c_str (text_mode bytes) /\
    ((Z.of_nat (String.length bytes) < 2 ^ 31)%Z ->
     ShaderBuilder.submitted padded = padded).
Proof.
  intros text_mode fs fileName bytes Hfs Hshort Hsize padded.
  split; [| split].
  - unfold Shader.readShader. rewrite Hfs.
    rewrite Z.mod_small by lia. rewrite Nat2Z.id.
    rewrite (read_into_short _ _ Hshort). reflexivity.
  - apply c_str_padding.
  - intros Hsmall. apply submitted_short.
    unfold padded. rewrite length_append, length_nul_string. lia.
Qed.

End ShaderSources.

Section Compiler.

Local Open Scope string_scope.

Variable compiles : string -> GLenum -> bool.
Variable info_log : string -> GLenum -> string.

(** X21. [createShader] returns a handle that was not in use.  When the
    source compiles it prints nothing and the shader exists afterwards.
    When it does not, the handle it returns is that of a shader already
    deleted: the shaders that exist are those there were before the call,
    and what is printed is the heading, a line end, at most 1023 characters
    of the log, and a line end. *)
Theorem createShader_outcome :
  forall (existing : list GLuint) (sourceCode : string) (shaderType : GLenum),
    let made := ShaderBuilder.createShader compiles info_log existing sourceCode shaderType in
    let source := ShaderBuilder.submitted sourceCode in
    ~ In (ShaderBuilder.handle made) existing /\
    (compiles source shaderType = true ->
     ShaderBuilder.diagnostic made = "" /\
     ShaderBuilder.shaders made = ShaderBuilder.handle made :: existing) /\
    (compiles source shaderType = false ->
     ShaderBuilder.shaders made = existing /\
     ~ In (ShaderBuilder.handle made) (ShaderBuilder.shaders made) /\
     ShaderBuilder.diagnostic made
     = "The shader failed to compile with the error:" ++ Shader.endl
       ++ Shader.c_str (substring 0 1023 (info_log source shaderType)) ++ Shader.endl /\
     (String.length (ShaderBuilder.diagnostic made) <= 1069)%nat).
Proof.
  intros existing sourceCode shaderType made source.
  assert (Hfresh : ~ In (gl_fresh existing) existing) by apply gl_fresh_not_used.
  subst made source. unfold ShaderBuilder.createShader.
  destruct (compiles (ShaderBuilder.submitted sourceCode) shaderType);
    cbn [ShaderBuilder.handle ShaderBuilder.diagnostic ShaderBuilder.shaders].
  - split; [exact Hfresh |]. split; [intros _; split; reflexivity | discriminate].
  - split; [exact Hfresh |]. split; [discriminate |]. intros _.
    cbn [filter]. rewrite Z.eqb_refl. cbn [negb].
    rewrite (filter_unused existing _ Hfresh).
    split; [reflexivity |]. split; [exact Hfresh |].
    split; [reflexivity |].
    unfold ShaderBuilder.glGetShaderInfoLog.
    rewrite !length_append.
    pose proof (length_c_str (substring 0 (1024 - 1)
                                (info_log (ShaderBuilder.submitted sourceCode) shaderType)))
      as Hc.
    rewrite length_substring_0 in Hc.
    change (String.length "The shader failed to compile with the error:") with 44%nat.
    change (String.length Shader.endl) with 1%nat.
    lia.
Qed.

End Compiler.

Lemma readShader_length_witness :
  Example.windows_assets Shader.vertex_path = Some Shader.windows_shader /\
  exists s : string,
    Shader.readShader Shader.crlf_text_mode Example.windows_assets Shader.vertex_path
    = Shader.mkResult "" (Shader.Returns s) /\
    Z.of_nat (String.length s)
    = Z.of_nat (String.length Shader.windows_shader) mod 2 ^ 32 /\
    (String.length (Shader.c_str s)
     <= String.length (Shader.crlf_text_mode Shader.windows_shader))%nat.
Proof.
  split; [reflexivity |].
  exact (readShader_length Shader.crlf_text_mode Example.windows_assets
           Shader.vertex_path Shader.windows_shader eq_refl).
Defined.

Lemma readShader_pads_translated_text_witness :
  Example.windows_assets Shader.vertex_path = Some Shader.windows_shader /\
  (String.length (Shader.crlf_text_mode Shader.windows_shader)
   <= String.length Shader.windows_shader)%nat /\
  Z.of_nat (String.length Shader.windows_shader) < 2 ^ 32 /\
  Shader.readShader Shader.crlf_text_mode Example.windows_assets Shader.vertex_path
  = Shader.mkResult ""
      (Shader.Returns
         (Shader.crlf_text_mode Shader.windows_shader
          ++ Shader.nul_string
               (String.length Shader.windows_shader
                - String.length (Shader.crlf_text_mode Shader.windows_shader)))).
Proof.
  assert (Hshort : (String.length (Shader.crlf_text_mode Shader.windows_shader)
                    <= String.length Shader.windows_shader)%nat)
    by (vm_compute; lia).
  assert (Hsize : Z.of_nat (String.length Shader.windows_shader) < 2 ^ 32)
    by reflexivity.
  split; [reflexivity |]. split; [exact Hshort |]. split; [exact Hsize |].
  exact (proj1 (readShader_pads_translated_text Shader.crlf_text_mode
                  Example.windows_assets Shader.vertex_path Shader.windows_shader
                  eq_refl Hshort Hsize)).
Defined.

Lemma createShader_outcome_witness :
  Example.rejects (ShaderBuilder.submitted Shader.unix_shader) GL_VERTEX_SHADER = false /\
  ShaderBuilder.shaders
    (ShaderBuilder.createShader Example.rejects Example.syntax_error [1; 2]
       Shader.unix_shader GL_VERTEX_SHADER) = [1; 2] /\
  ~ In (ShaderBuilder.handle
          (ShaderBuilder.createShader Example.rejects Example.syntax_error [1; 2]
             Shader.unix_shader GL_VERTEX_SHADER))
       (ShaderBuilder.shaders
          (ShaderBuilder.createShader Example.rejects Example.syntax_error [1; 2]
             Shader.unix_shader GL_VERTEX_SHADER)).
Proof.
  split; [reflexivity |].
  pose proof (proj2 (proj2 (createShader_outcome Example.rejects Example.syntax_error
                              [1; 2] Shader.unix_shader GL_VERTEX_SHADER)) eq_refl)
    as (Hshaders & Hdeleted & _).
  split; [exact Hshaders | exact Hdeleted].
Defined.
